(** * timon: detection of abrupt wall-clock changes

    A shallow embedding of the clock-jump detector of [timon.py]
    ([TimeMonitor], [get_time_status], [get_time_warning],
    [format_timedelta] and the two [MainWindow] methods that drive them),
    of [get_local_time], of the dragging of the main window and of the
    timers made by [q_delay], followed by the properties established
    about them.

    Modelling conventions.
    - Clock readings are Python floats in the source.  They are modelled
      as exact rationals ([Q]): [-], [abs] and [>] are the exact
      operations, IEEE rounding of the float operations is not modelled.
    - The two time sources are oracles: the k-th call of [time.time()]
      and of [time.monotonic()] returns the k-th element of a sequence
      that is part of the environment.
    - Python code that reads the clocks, assigns attributes and may raise
      is written in a state-and-exception monad whose state survives a
      raised exception, as attribute assignments do in Python. *)

From Stdlib Require Import ZArith QArith Qabs Bool String List Lia Lqa.
From Stdlib Require Import DecimalString.
Import ListNotations.

Local Open Scope string_scope.

(** ** Python built-ins used by the source *)

Module Py.

(** [x > y] on numbers. *)
Definition gt (x y : Q) : bool := negb (Qle_bool x y).

(** [divmod(a, b)] on integers: floor division and its remainder. *)
Definition divmod (a b : Z) : Z * Z := (a / b, a mod b)%Z.

(** ['{}'.format(n)] for an integer [n]: its decimal numeral. *)
Definition str (n : Z) : string := NilZero.string_of_int (Z.to_int n).

(** [datetime.timedelta]: a duration normalised into days, seconds
    ([0 <= seconds < 86400]) and microseconds
    ([0 <= microseconds < 1000000]). *)
Record timedelta : Type := mk_timedelta {
  days : Z;
  seconds : Z;
  microseconds : Z
}.

(** Rounding to the nearest integer, ties to the even one. *)
Definition round_half_even (q : Q) : Z :=
  let n := Qnum q in
  let d := Zpos (Qden q) in
  let f := (n / d)%Z in
  match (2 * (n mod d) ?= d)%Z with
  | Lt => f
  | Gt => (f + 1)%Z
  | Eq => if Z.even f then f else (f + 1)%Z
  end.

(** [timedelta(seconds=x)]: the duration is rounded to the nearest
    microsecond (ties to even) and normalised. *)
Definition timedelta_seconds (x : Q) : timedelta :=
  let total := round_half_even (x * 1000000) in
  let '(s, us) := divmod total 1000000 in
  let '(d, s) := divmod s 86400 in
  {| days := d; seconds := s; microseconds := us |}.

(** The value of a duration in microseconds. *)
Definition total_microseconds (td : timedelta) : Z :=
  ((days td * 86400 + seconds td) * 1000000 + microseconds td)%Z.

(** The normalisation invariant of [timedelta] objects. *)
Definition normalised (td : timedelta) : Prop :=
  (0 <= seconds td < 86400)%Z /\ (0 <= microseconds td < 1000000)%Z.

End Py.

(** ** State and exceptions *)

Inductive Exception : Type :=
| PyException (name : string).

Definition ConfigurationError : Exception := PyException "ConfigurationError".

Inductive Outcome (A : Type) : Type :=
| Return (a : A)
| Raise (e : Exception).

Arguments Return {A} a.
Arguments Raise {A} e.

(** A computation over a state [S]: it ends normally or by raising, and
    in both cases leaves a state behind. *)
Definition M (S A : Type) : Type := S -> Outcome A * S.

Definition ret {S A : Type} (a : A) : M S A := fun s => (Return a, s).

Definition bind {S A B : Type} (m : M S A) (k : A -> M S B) : M S B :=
  fun s =>
    match m s with
    | (Return a, s') => k a s'
    | (Raise e, s') => (Raise e, s')
    end.

Definition raise {S A : Type} (e : Exception) : M S A := fun s => (Raise e, s).

Definition gets {S A : Type} (f : S -> A) : M S A := fun s => (Return (f s), s).

Definition modify {S : Type} (f : S -> S) : M S unit := fun s => (Return tt, f s).

(** Running a computation on a component of a larger state. *)
Definition zoom {S T A : Type} (proj : T -> S) (upd : S -> T -> T)
    (m : M S A) : M T A :=
  fun t => let '(r, s') := m (proj t) in (r, upd s' t).

Declare Scope py_scope.
Delimit Scope py_scope with py.
Notation "x <- m ;; k" := (bind m (fun x => k))
  (at level 61, m at next level, right associativity) : py_scope.
Notation "m ;; k" := (bind m (fun _ => k))
  (at level 61, right associativity) : py_scope.
Local Open Scope py_scope.

(** ** The time sources *)

(** [time_source k] is what the k-th call of [time.time()] returns,
    [monotonic_source k] what the k-th call of [time.monotonic()]
    returns; the two counters say how many calls were made so far. *)
Record Clock : Type := mk_Clock {
  time_source : nat -> Q;
  time_calls : nat;
  monotonic_source : nat -> Q;
  monotonic_calls : nat
}.

Module time.

Definition time : M Clock Q :=
  fun c =>
    (Return (time_source c (time_calls c)),
     mk_Clock (time_source c) (S (time_calls c))
              (monotonic_source c) (monotonic_calls c)).

Definition monotonic : M Clock Q :=
  fun c =>
    (Return (monotonic_source c (monotonic_calls c)),
     mk_Clock (time_source c) (time_calls c)
              (monotonic_source c) (S (monotonic_calls c))).

End time.

(** ** Snapshots *)

(** The dictionary built by [get_time_status], with its three keys. *)
Record Status : Type := mk_Status {
  timestamp : Q;
  monotonic_seconds : Q;
  diff : Q
}.

Definition get_time_status : M Clock Status :=
  timestamp <- time.time ;;
  monotonic_seconds <- time.monotonic ;;
  ret {| timestamp := timestamp;
         monotonic_seconds := monotonic_seconds;
         diff := timestamp - monotonic_seconds |}.

(** ** Formatting *)

Definition format_timedelta (td : Py.timedelta) : string :=
  let days := Py.days td in
  let remain_seconds := Py.seconds td in
  let '(hours, remain_seconds) := Py.divmod remain_seconds 3600 in
  let '(minutes, remain_seconds) := Py.divmod remain_seconds 60 in
  let seconds := remain_seconds in
  if (days =? hours)%Z && (hours =? minutes)%Z
     && (minutes =? seconds)%Z && (seconds =? 0)%Z
  then "0秒"
  else
    let result := "" in
    let result := result ++ (if (days >? 0)%Z then Py.str days ++ "天" else "") in
    let result := result ++ (if (hours >? 0)%Z then Py.str hours ++ "小时" else "") in
    let result := result ++ (if (minutes >? 0)%Z then Py.str minutes ++ "分钟" else "") in
    let result := result ++ (if (seconds >? 0)%Z then Py.str seconds ++ "秒" else "") in
    result.

Definition get_time_warning (status last_status : Status) : string :=
  let m_key := monotonic_seconds status - monotonic_seconds last_status in
  let t_change := Qabs (timestamp status - timestamp last_status) in
  "过去" ++ format_timedelta (Py.timedelta_seconds m_key)
    ++ "内，系统时间变化达到"
    ++ format_timedelta (Py.timedelta_seconds t_change).

(** ** The application state *)

(** A [WarningWindow] is determined by its title and its content. *)
Record WarningWindow : Type := mk_WarningWindow {
  title : string;
  content : string
}.

(** The attributes of a [TimeMonitor] object. *)
Record TimeMonitor : Type := mk_TimeMonitor {
  _max_seconds : Q;
  _last_status : Status
}.

(** The running application: the time sources, the monitor held by the
    main window in [_time_monitor], the window held in
    [_warning_window], and the windows shown full screen so far (the
    effect of [showFullScreen()], oldest first). *)
Record App : Type := mk_App {
  clock : Clock;
  _time_monitor : TimeMonitor;
  _warning_window : option WarningWindow;
  full_screen : list WarningWindow
}.

Definition with_clock (c : Clock) (a : App) : App :=
  mk_App c (_time_monitor a) (_warning_window a) (full_screen a).

Definition set_last_status (s : Status) (a : App) : App :=
  mk_App (clock a)
         (mk_TimeMonitor (_max_seconds (_time_monitor a)) s)
         (_warning_window a) (full_screen a).

(** A callback as [monitor] receives it. *)
Definition Callback : Type := Status -> Status -> M App unit.

(** ** TimeMonitor *)

Definition TimeMonitor__init__ (warn_seconds : Q) : M Clock TimeMonitor :=
  last_status <- get_time_status ;;
  ret {| _max_seconds := warn_seconds; _last_status := last_status |}.

Definition monitor (callback : Callback) : M App unit :=
  status <- zoom clock with_clock get_time_status ;;
  last_status <- gets (fun a => _last_status (_time_monitor a)) ;;
  modify (set_last_status status) ;;
  max_seconds <- gets (fun a => _max_seconds (_time_monitor a)) ;;
  if Py.gt (Qabs (diff status - diff last_status)) max_seconds
  then callback status last_status
  else ret tt.

(** ** MainWindow *)

Definition show_time_jump : Callback :=
  fun status last_status =>
    let w := {| title := "检测到时间突变";
                content := get_time_warning status last_status |} in
    modify (fun a => mk_App (clock a) (_time_monitor a) (Some w)
                            (full_screen a ++ [w])).

Definition monitor_time_change : M App unit := monitor show_time_jump.

(** [MainWindow.__init__], as far as the detector is concerned: a
    monitor is created from [warn_seconds], no warning window exists and
    nothing was shown.  The source passes [warn_seconds=300]. *)
Definition launch (warn_seconds : Q) (c : Clock) : Outcome App :=
  match TimeMonitor__init__ warn_seconds c with
  | (Return tm, c') => Return (mk_App c' tm None [])
  | (Raise e, _) => Raise e
  end.

Definition MainWindow__init__ (c : Clock) : Outcome App := launch 300 c.

(** ** Vocabulary of the statements *)

(** The snapshot that [get_time_status] builds on clock [c], and the
    clock it leaves behind. *)
Definition sample (c : Clock) : Status :=
  let t := time_source c (time_calls c) in
  let m := monotonic_source c (monotonic_calls c) in
  mk_Status t m (t - m).

Definition tick (c : Clock) : Clock :=
  mk_Clock (time_source c) (S (time_calls c))
           (monotonic_source c) (S (monotonic_calls c)).

(** The snapshot held by the monitor and its threshold. *)
Definition held (a : App) : Status := _last_status (_time_monitor a).
Definition threshold (a : App) : Q := _max_seconds (_time_monitor a).

(** The state a check leaves behind before any callback runs: both time
    sources were read once and the new snapshot is held. *)
Definition advance (a : App) : App :=
  set_last_status (sample (clock a)) (with_clock (tick (clock a)) a).

(** The change of offset that the next check of [a] measures. *)
Definition delta (a : App) : Q :=
  Qabs (diff (sample (clock a)) - diff (held a)).

(** The offset of the k-th snapshot still to be taken from clock [c]. *)
Definition offset_at (c : Clock) (k : nat) : Q :=
  time_source c (time_calls c + k) - monotonic_source c (monotonic_calls c + k).

(** The offset that the k-th coming check of [a] compares with: the
    held one for the first check, the offset of the snapshot before
    for the others. *)
Definition preceding_offset (a : App) (k : nat) : Q :=
  match k with
  | O => diff (held a)
  | S j => offset_at (clock a) j
  end.

(** [n] checks during which no callback ran. *)
Fixpoint advance_by (n : nat) (a : App) : App :=
  match n with
  | O => a
  | S n' => advance_by n' (advance a)
  end.

(** The clock as it was before the latest reading of both sources. *)
Definition previous (c : Clock) : Clock :=
  mk_Clock (time_source c) (pred (time_calls c))
           (monotonic_source c) (pred (monotonic_calls c)).

(** The state left by a computation. *)
Definition after {A : Type} (m : M App A) (a : App) : App := snd (m a).

(** Whether the next check of [a] puts a warning on the screen. *)
Definition anomaly_reported (a : App) : bool :=
  (length (full_screen a) <? length (full_screen (after monitor_time_change a)))%nat.

(** [n] successive checks with the same callback. *)
Fixpoint checks (callback : Callback) (n : nat) : M App unit :=
  match n with
  | O => ret tt
  | S n' => monitor callback ;; checks callback n'
  end.

(** The states of the application: the one it starts in, and those it
    reaches by the periodic [monitor_time_change]. *)
Inductive reachable : App -> Prop :=
| reach_launch (warn_seconds : Q) (c : Clock) (a : App) :
    launch warn_seconds c = Return a -> reachable a
| reach_check (a : App) :
    reachable a -> reachable (after monitor_time_change a).

(** A snapshot is consistent when its offset is the difference of its
    own two readings. *)
Definition consistent (s : Status) : Prop :=
  diff s = timestamp s - monotonic_seconds s.

(** The two durations reported on an anomaly: the signed difference of
    the monotonic readings and the absolute difference of the wall-clock
    readings. *)
Definition elapsed_monotonic (status last_status : Status) : Q :=
  monotonic_seconds status - monotonic_seconds last_status.

Definition elapsed_wall_clock (status last_status : Status) : Q :=
  Qabs (timestamp status - timestamp last_status).

(** *** The formatting rule as the specification words it

    Days, hours, minutes and seconds are obtained from the whole
    seconds of the duration by floor division, listed largest unit
    first, a unit is kept only if its value is not zero, and a duration
    with nothing to list is rendered by the sentinel. *)
Definition units_of (total_seconds : Z) : list (Z * string) :=
  [ ((total_seconds / 86400)%Z, "天");
    ((total_seconds mod 86400 / 3600)%Z, "小时");
    ((total_seconds mod 3600 / 60)%Z, "分钟");
    ((total_seconds mod 60)%Z, "秒") ].

Definition spec_format (total_seconds : Z) : string :=
  match filter (fun u => negb (fst u =? 0)%Z) (units_of total_seconds) with
  | [] => "0秒"
  | kept => String.concat "" (map (fun u => Py.str (fst u) ++ snd u) kept)
  end.

Definition whole_seconds (td : Py.timedelta) : Z :=
  (Py.days td * 86400 + Py.seconds td)%Z.

(** *** Concrete inputs *)

(** A wall clock and a monotonic clock that both advance by two seconds
    per reading; the wall clock is stepped by [jump] seconds from its
    reading number [from] on. *)
Definition stepped_clock (from : nat) (jump : Q) : Clock :=
  mk_Clock
    (fun k => 1700000000 + 2 * inject_Z (Z.of_nat k)
              + (if (from <=? k)%nat then jump else 0))
    0
    (fun k => 5000 + 2 * inject_Z (Z.of_nat k))
    0.

Definition steady_clock : Clock := stepped_clock 0 0.

(** The application holding the first snapshot of clock [c]. *)
Definition app_on (warn_seconds : Q) (c : Clock) : App :=
  mk_App (tick c) (mk_TimeMonitor warn_seconds (sample c)) None [].

Definition RuntimeError : Exception := PyException "RuntimeError".

Definition failing_callback : Callback := fun _ _ => raise RuntimeError.

(** ** Further parts of the program *)

Definition OverflowError : Exception := PyException "OverflowError".
Definition TypeError : Exception := PyException "TypeError".

(** *** The units extracted by [format_timedelta]

    The first five statements of [format_timedelta]: days, hours,
    minutes and seconds, as the two [divmod] steps produce them. *)
Definition components (td : Py.timedelta) : Z * Z * Z * Z :=
  let days := Py.days td in
  let remain_seconds := Py.seconds td in
  let '(hours, remain_seconds) := Py.divmod remain_seconds 3600 in
  let '(minutes, remain_seconds) := Py.divmod remain_seconds 60 in
  let seconds := remain_seconds in
  (days, hours, minutes, seconds).

(** *** [datetime] values and [get_local_time]

    [timedelta(days=d, seconds=s, microseconds=us)]: the constructor
    carries microseconds into seconds and seconds into days. *)
Definition timedelta_of (d s us : Z) : Py.timedelta :=
  let '(carry_s, us') := Py.divmod us 1000000 in
  let '(carry_d, s') := Py.divmod (s + carry_s) 86400 in
  Py.mk_timedelta (d + carry_d) s' us'.

(** [a + b] on durations. *)
Definition timedelta_add (a b : Py.timedelta) : Py.timedelta :=
  timedelta_of (Py.days a + Py.days b) (Py.seconds a + Py.seconds b)
               (Py.microseconds a + Py.microseconds b).

(** A [datetime] without time zone.  Its date is kept as the proleptic
    Gregorian ordinal that [toordinal()] returns (1 for 0001-01-01),
    which is how [datetime] arithmetic reads and writes it. *)
Record datetime : Type := mk_datetime {
  ordinal : Z;
  hour : Z;
  minute : Z;
  second : Z;
  microsecond : Z
}.

(** The ordinal of 9999-12-31, the last date. *)
Definition _MAXORDINAL : Z := 3652059.

Definition valid_datetime (t : datetime) : Prop :=
  (1 <= ordinal t <= _MAXORDINAL)%Z
  /\ (0 <= hour t < 24)%Z /\ (0 <= minute t < 60)%Z
  /\ (0 <= second t < 60)%Z /\ (0 <= microsecond t < 1000000)%Z.

(** [self + other] for a [datetime] and a [timedelta]: the datetime is
    turned into a duration since ordinal 0, the durations are added,
    and the sum is split again; a date outside [1 .. _MAXORDINAL] is an
    [OverflowError]. *)
Definition datetime_add (self : datetime) (other : Py.timedelta)
    : Outcome datetime :=
  let delta :=
    timedelta_of (ordinal self)
                 (hour self * 3600 + minute self * 60 + second self)
                 (microsecond self) in
  let delta := timedelta_add delta other in
  let '(hour, rem) := Py.divmod (Py.seconds delta) 3600 in
  let '(minute, second) := Py.divmod rem 60 in
  if ((0 <? Py.days delta) && (Py.days delta <=? _MAXORDINAL))%Z
  then Return (mk_datetime (Py.days delta) hour minute second
                           (Py.microseconds delta))
  else Raise OverflowError.

(** [timedelta(hours=h)]. *)
Definition timedelta_hours (h : Z) : Py.timedelta :=
  timedelta_of 0 (h * 3600) 0.

Definition get_local_time (utc_time : datetime) : Outcome datetime :=
  datetime_add utc_time (timedelta_hours 8).

(** *** Dragging the main window

    Qt's [int] has 32 bits.  [wrap_int z] is what a C++ [int]
    computation leaves when its exact result is [z]. *)
Definition INT_MIN : Z := -2147483648.
Definition INT_MAX : Z := 2147483647.

Definition wrap_int (z : Z) : Z :=
  ((z + 2147483648) mod 4294967296 - 2147483648)%Z.

Definition is_int (z : Z) : bool := ((INT_MIN <=? z) && (z <=? INT_MAX))%Z.

(** A point of the screen; its coordinates are [int]s. *)
Record QPoint : Type := mk_QPoint {
  qx : Z;
  qy : Z
}.

(** [p - q] on points, computed on [int]s. *)
Definition QPoint_sub (p q : QPoint) : QPoint :=
  mk_QPoint (wrap_int (qx p - qx q)) (wrap_int (qy p - qy q)).

(** The position of the main window ([self.x()], [self.y()], changed by
    [self.move]) and its attribute [_drag_start], [None] until the
    first press. *)
Record Window : Type := mk_Window {
  pos_x : Z;
  pos_y : Z;
  _drag_start : option QPoint
}.

(** [self.move(x, y)]: the arguments are Python integers, converted to
    [int]; one that does not fit is an [OverflowError], and the window
    stays where it is. *)
Definition move (x y : Z) : M Window unit :=
  if is_int x && is_int y
  then modify (fun w => mk_Window x y (_drag_start w))
  else raise OverflowError.

(** [mousePressEvent], given [event.globalPos()]. *)
Definition mousePressEvent (globalPos : QPoint) : M Window unit :=
  modify (fun w => mk_Window (pos_x w) (pos_y w) (Some globalPos)).

(** [mouseMoveEvent], given [event.globalPos()].  Subtracting [None]
    from a point is a [TypeError]. *)
Definition mouseMoveEvent (globalPos : QPoint) : M Window unit :=
  drag_start <- gets _drag_start ;;
  match drag_start with
  | None => raise TypeError
  | Some start =>
      let delta := QPoint_sub globalPos start in
      x <- gets pos_x ;;
      y <- gets pos_y ;;
      move (x + qx delta) (y + qy delta) ;;
      modify (fun w => mk_Window (pos_x w) (pos_y w) (Some globalPos))
  end.

(** Coordinates as screens have them: within 2^29 of the origin. *)
Definition screen_coordinate (v : Z) : Prop :=
  (-536870912 <= v <= 536870912)%Z.

Definition screen_point (p : QPoint) : Prop :=
  screen_coordinate (qx p) /\ screen_coordinate (qy p).

(** The move events of one drag, in order. *)
Fixpoint mouse_moves (positions : list QPoint) : M Window unit :=
  match positions with
  | [] => ret tt
  | p :: rest => mouseMoveEvent p ;; mouse_moves rest
  end.

(** *** Timers

    The two closures that [q_delay] connects to the timer's [timeout]
    signal. *)
Inductive Slot : Type :=
| repeat_wrapper_slot
| action_wrapper_slot.

(** A [QTimer]: the slots connected to [timeout] in the order of their
    connection (a slot connected twice is listed twice and called
    twice), the single-shot flag, the interval and whether the timer
    is running. *)
Record QTimer : Type := mk_QTimer {
  connected : list Slot;
  isSingleShot : bool;
  interval : Z;
  isActive : bool
}.

Definition QTimer_new : QTimer := mk_QTimer [] false 0 false.

Definition timeout_connect (s : Slot) (t : QTimer) : QTimer :=
  mk_QTimer (connected t ++ [s]) (isSingleShot t) (interval t) (isActive t).

Definition setSingleShot (b : bool) (t : QTimer) : QTimer :=
  mk_QTimer (connected t) b (interval t) (isActive t).

Definition start (msec : Z) (t : QTimer) : QTimer :=
  mk_QTimer (connected t) (isSingleShot t) msec true.

Definition stop (t : QTimer) : QTimer :=
  mk_QTimer (connected t) (isSingleShot t) (interval t) false.

(** A timer together with the state [X] its action works on. *)
Record Loop (X : Type) : Type := mk_Loop {
  timer : QTimer;
  host : X
}.

Arguments mk_Loop {X} timer host.
Arguments timer {X} l.
Arguments host {X} l.

Definition on_timer {X : Type} (f : QTimer -> QTimer) : M (Loop X) unit :=
  modify (fun l => mk_Loop (f (timer l)) (host l)).

Definition action_wrapper {X : Type} (action : M X unit) : M (Loop X) unit :=
  zoom host (fun x l => mk_Loop (timer l) x) action.

Definition repeat_wrapper {X : Type} (action : M X unit) (repeat_millis : Z)
    : M (Loop X) unit :=
  action_wrapper action ;;
  if (repeat_millis >? 0)%Z
  then
    on_timer (timeout_connect action_wrapper_slot) ;;
    on_timer (setSingleShot false) ;;
    on_timer (start repeat_millis)
  else ret tt.

(** The timer that [q_delay] returns.  The action and the repeat
    interval are only captured by the two closures. *)
Definition q_delay {X : Type} (action : M X unit)
    (delay_millis repeat_millis : Z) : QTimer :=
  let timer := QTimer_new in
  let timer := timeout_connect repeat_wrapper_slot timer in
  let timer := setSingleShot true timer in
  let timer := start delay_millis timer in
  timer.

Definition run_slot {X : Type} (action : M X unit) (repeat_millis : Z)
    (s : Slot) : M (Loop X) unit :=
  match s with
  | repeat_wrapper_slot => repeat_wrapper action repeat_millis
  | action_wrapper_slot => action_wrapper action
  end.

(** Emission of [timeout]: the slots connected when the emission begins
    are called in the order of their connection. *)
Fixpoint emit {X : Type} (action : M X unit) (repeat_millis : Z)
    (slots : list Slot) : M (Loop X) unit :=
  match slots with
  | [] => ret tt
  | s :: rest =>
      run_slot action repeat_millis s ;; emit action repeat_millis rest
  end.

(** The timer expires: nothing happens if it is not running; a
    single-shot timer is stopped first; then [timeout] is emitted. *)
Definition timerEvent {X : Type} (action : M X unit) (repeat_millis : Z)
    : M (Loop X) unit :=
  fun l =>
    if isActive (timer l)
    then
      let l' := if isSingleShot (timer l)
                then mk_Loop (stop (timer l)) (host l)
                else l in
      emit action repeat_millis (connected (timer l')) l'
    else (Return tt, l).

(** [n] successive expirations. *)
Fixpoint timeouts {X : Type} (action : M X unit) (repeat_millis : Z)
    (n : nat) : M (Loop X) unit :=
  match n with
  | O => ret tt
  | S n' =>
      timeouts action repeat_millis n' ;; timerEvent action repeat_millis
  end.

(** The timer that [MainWindow.__init__] keeps in [_monitor_timer]:
    the periodic check, first after 2000 ms and then every 2000 ms. *)
Definition _monitor_timer : QTimer :=
  let interval := 2000%Z in
  q_delay monitor_time_change interval interval.

(** 1 + 2 + ... + n. *)
Fixpoint triangle (n : nat) : nat :=
  match n with
  | O => O
  | S n' => (S n' + triangle n')%nat
  end.

(** The timer after [n] expirations when it repeats. *)
Definition repeating_timer (delay_millis repeat_millis : Z) (n : nat)
    : QTimer :=
  match n with
  | O => mk_QTimer [repeat_wrapper_slot] true delay_millis true
  | S _ =>
      mk_QTimer (repeat_wrapper_slot :: repeat action_wrapper_slot n)
                false repeat_millis true
  end.

(** A clock whose wall-clock reading gains [step] seconds on the
    monotonic one between any two readings. *)
Definition drifting_clock (step : Q) : Clock :=
  mk_Clock (fun k => inject_Z (Z.of_nat k) * step
                     + 2 * inject_Z (Z.of_nat k))
           0
           (fun k => 2 * inject_Z (Z.of_nat k))
           0.

(** ** Basic facts *)

Lemma gt_spec (x y : Q) : Py.gt x y = true <-> y < x.
Proof.
  unfold Py.gt. rewrite negb_true_iff.
  split; intro H.
  - apply Qnot_le_lt. intro L. apply Qle_bool_iff in L. congruence.
  - destruct (Qle_bool x y) eqn:E; [|reflexivity].
    apply Qle_bool_iff in E. exfalso. apply (Qlt_not_le _ _ H E).
Qed.

Lemma gt_false (x y : Q) : Py.gt x y = false <-> x <= y.
Proof.
  unfold Py.gt. rewrite negb_false_iff. apply Qle_bool_iff.
Qed.

Lemma get_time_status_eq (c : Clock) :
  get_time_status c = (Return (sample c), tick c).
Proof. reflexivity. Qed.

Lemma TimeMonitor__init__eq (warn_seconds : Q) (c : Clock) :
  TimeMonitor__init__ warn_seconds c
  = (Return (mk_TimeMonitor warn_seconds (sample c)), tick c).
Proof. reflexivity. Qed.

Lemma launch_eq (warn_seconds : Q) (c : Clock) :
  launch warn_seconds c = Return (app_on warn_seconds c).
Proof. reflexivity. Qed.

(** The application as [MainWindow.__init__] leaves it is a state the
    application starts in. *)
Lemma main_window_reachable (c : Clock) (a : App) :
  MainWindow__init__ c = Return a -> reachable a.
Proof. intro H. exact (reach_launch 300 c a H). Qed.

(** A check reads both clocks, stores the snapshot, and only then either
    hands over to the callback or returns. *)
Lemma monitor_eq (callback : Callback) (a : App) :
  monitor callback a
  = if Py.gt (delta a) (threshold a)
    then callback (sample (clock a)) (held a) (advance a)
    else (Return tt, advance a).
Proof.
  unfold monitor, bind, zoom, gets, modify.
  rewrite get_time_status_eq.
  match goal with
  | |- (if ?b then _ else _) _ = _ =>
      change b with (Py.gt (delta a) (threshold a))
  end.
  destruct (Py.gt (delta a) (threshold a)); reflexivity.
Qed.

Lemma monitor_quiet (callback : Callback) (a : App) :
  delta a <= threshold a -> monitor callback a = (Return tt, advance a).
Proof.
  intro H. rewrite monitor_eq.
  apply gt_false in H. rewrite H. reflexivity.
Qed.

Lemma monitor_fires (callback : Callback) (a : App) :
  threshold a < delta a ->
  monitor callback a = callback (sample (clock a)) (held a) (advance a).
Proof.
  intro H. rewrite monitor_eq.
  apply gt_spec in H. rewrite H. reflexivity.
Qed.

(** Both outcomes of the periodic check of [a], each settled by
    computation. *)
Ltac check_cases a :=
  unfold after, monitor_time_change;
  rewrite monitor_eq;
  destruct (Py.gt (delta a) (threshold a));
  reflexivity.

Lemma show_time_jump_eq (status last_status : Status) (a : App) :
  show_time_jump status last_status a
  = (Return tt,
     let w := mk_WarningWindow "检测到时间突变"
                               (get_time_warning status last_status) in
     mk_App (clock a) (_time_monitor a) (Some w) (full_screen a ++ [w])).
Proof. reflexivity. Qed.

(** What the periodic check of the main window leaves on the screen. *)
Lemma full_screen_after_check (a : App) :
  full_screen (after monitor_time_change a)
  = if Py.gt (delta a) (threshold a)
    then (full_screen a
          ++ [mk_WarningWindow "检测到时间突变"
                               (get_time_warning (sample (clock a)) (held a))])%list
    else full_screen a.
Proof.
  check_cases a.
Qed.

Lemma anomaly_reported_eq (a : App) :
  anomaly_reported a = Py.gt (delta a) (threshold a).
Proof.
  unfold anomaly_reported. rewrite full_screen_after_check.
  destruct (Py.gt (delta a) (threshold a)).
  - rewrite length_app. cbn [length]. apply Nat.ltb_lt. lia.
  - apply Nat.ltb_irrefl.
Qed.

Lemma anomaly_reported_iff (a : App) :
  anomaly_reported a = true <-> threshold a < delta a.
Proof. rewrite anomaly_reported_eq. apply gt_spec. Qed.

Lemma anomaly_reported_false_iff (a : App) :
  anomaly_reported a = false <-> delta a <= threshold a.
Proof. rewrite anomaly_reported_eq. apply gt_false. Qed.

(** The monitor kept by the periodic check: same threshold, new snapshot. *)
Lemma time_monitor_after_check (a : App) :
  _time_monitor (after monitor_time_change a)
  = mk_TimeMonitor (threshold a) (sample (clock a)).
Proof.
  check_cases a.
Qed.

Lemma clock_after_check (a : App) :
  clock (after monitor_time_change a) = tick (clock a).
Proof.
  check_cases a.
Qed.

(** ** Construction *)

(** C1, as the specification states it, does not hold: a threshold of
    zero and a threshold of minus five are both accepted, construction
    returns a monitor and raises nothing. *)
Lemma construction_accepts_nonpositive_threshold :
  0 <= 0 /\ -5 <= 0
  /\ fst (TimeMonitor__init__ 0 steady_clock) <> Raise ConfigurationError
  /\ fst (TimeMonitor__init__ (-5) steady_clock) <> Raise ConfigurationError
  /\ fst (TimeMonitor__init__ (-5) steady_clock)
     = Return (mk_TimeMonitor (-5) (sample steady_clock)).
Proof.
  repeat split; try discriminate.
Qed.

(** C1 (amended): constructing a [TimeMonitor] never fails.  Whatever
    the threshold, positive, zero or negative, construction returns
    normally with a monitor that stores the threshold as given and holds
    the snapshot sampled during construction; no [ConfigurationError]
    is raised. *)
Theorem construction_accepts_every_threshold (warn_seconds : Q) (c : Clock) :
  exists tm : TimeMonitor,
    TimeMonitor__init__ warn_seconds c = (Return tm, tick c)
    /\ _max_seconds tm = warn_seconds
    /\ _last_status tm = sample c
    /\ fst (TimeMonitor__init__ warn_seconds c) <> Raise ConfigurationError.
Proof.
  exists (mk_TimeMonitor warn_seconds (sample c)).
  rewrite TimeMonitor__init__eq. cbn [fst _max_seconds _last_status].
  repeat split. discriminate.
Qed.

(** ** The threshold test *)

(** C2: a check reports an anomaly exactly when the absolute difference
    between the offset of the new snapshot and the offset of the held
    snapshot is strictly greater than the threshold.  A change equal to
    the threshold is not reported; a change of the threshold plus a
    positive epsilon is. *)
Theorem anomaly_iff_change_exceeds_threshold (a : App) :
  (anomaly_reported a = true
   <-> threshold a < Qabs (diff (sample (clock a)) - diff (held a)))
  /\ (Qabs (diff (sample (clock a)) - diff (held a)) == threshold a ->
      anomaly_reported a = false)
  /\ (forall eps : Q,
        0 < eps ->
        Qabs (diff (sample (clock a)) - diff (held a)) == threshold a + eps ->
        anomaly_reported a = true).
Proof.
  fold (delta a). split; [apply anomaly_reported_iff|]. split.
  - intro E. apply anomaly_reported_false_iff. rewrite E. apply Qle_refl.
  - intros eps Hpos E. apply anomaly_reported_iff. rewrite E. lra.
Qed.

Lemma anomaly_iff_change_exceeds_threshold_witness :
  (Qabs (diff (sample (clock (app_on 300 (stepped_clock 1 300))))
         - diff (held (app_on 300 (stepped_clock 1 300))))
   == threshold (app_on 300 (stepped_clock 1 300))
   /\ anomaly_reported (app_on 300 (stepped_clock 1 300)) = false)
  /\ (0 < 1 # 1000
      /\ Qabs (diff (sample (clock (app_on 300 (stepped_clock 1 (300 + (1 # 1000))))))
               - diff (held (app_on 300 (stepped_clock 1 (300 + (1 # 1000))))))
         == threshold (app_on 300 (stepped_clock 1 (300 + (1 # 1000)))) + (1 # 1000)
      /\ anomaly_reported (app_on 300 (stepped_clock 1 (300 + (1 # 1000)))) = true).
Proof.
  assert (Hexact :
            Qabs (diff (sample (clock (app_on 300 (stepped_clock 1 300))))
                  - diff (held (app_on 300 (stepped_clock 1 300))))
            == threshold (app_on 300 (stepped_clock 1 300)))
    by (vm_compute; reflexivity).
  assert (Heps : 0 < 1 # 1000) by reflexivity.
  assert (Hover :
            Qabs (diff (sample (clock (app_on 300 (stepped_clock 1 (300 + (1 # 1000))))))
                  - diff (held (app_on 300 (stepped_clock 1 (300 + (1 # 1000))))))
            == threshold (app_on 300 (stepped_clock 1 (300 + (1 # 1000))))
               + (1 # 1000))
    by (vm_compute; reflexivity).
  split.
  - split; [exact Hexact|].
    exact (proj1 (proj2 (anomaly_iff_change_exceeds_threshold _)) Hexact).
  - split; [exact Heps|]. split; [exact Hover|].
    exact (proj2 (proj2 (anomaly_iff_change_exceeds_threshold _))
                 (1 # 1000) Heps Hover).
Defined.

(** ** Direction of the jump *)

Lemma threshold_plus_one_exceeds (t : Q) : t < Qabs (t + 1).
Proof.
  pose proof (Qle_Qabs (t + 1)). lra.
Qed.

(** C3: detection does not depend on the direction of the jump.  For
    two checks under the same threshold, one whose offset moved forward
    by [m] and one whose offset moved backward by [m], either both
    report an anomaly or neither does; when [m] is the threshold plus
    one, both do. *)
Theorem detection_symmetric_in_direction (fwd bwd : App) (m : Q) :
  threshold fwd == threshold bwd ->
  diff (sample (clock fwd)) - diff (held fwd) == m ->
  diff (sample (clock bwd)) - diff (held bwd) == - m ->
  anomaly_reported fwd = anomaly_reported bwd
  /\ (m == threshold fwd + 1 ->
      anomaly_reported fwd = true /\ anomaly_reported bwd = true).
Proof.
  intros Ht Hf Hb.
  assert (Hdf : delta fwd == Qabs m) by (unfold delta; rewrite Hf; reflexivity).
  assert (Hdb : delta bwd == Qabs m)
    by (unfold delta; rewrite Hb; apply Qabs_opp).
  split.
  - apply eq_iff_eq_true. rewrite !anomaly_reported_iff.
    rewrite Hdf, Hdb, Ht. reflexivity.
  - intro Hm. rewrite !anomaly_reported_iff, Hdf, Hdb, <- Ht, Hm.
    split; apply threshold_plus_one_exceeds.
Qed.

Lemma detection_symmetric_in_direction_witness :
  threshold (app_on 300 (stepped_clock 1 301))
  == threshold (app_on 300 (stepped_clock 1 (-301)))
  /\ diff (sample (clock (app_on 300 (stepped_clock 1 301))))
     - diff (held (app_on 300 (stepped_clock 1 301))) == 301
  /\ diff (sample (clock (app_on 300 (stepped_clock 1 (-301)))))
     - diff (held (app_on 300 (stepped_clock 1 (-301)))) == - (301)
  /\ 301 == threshold (app_on 300 (stepped_clock 1 301)) + 1
  /\ anomaly_reported (app_on 300 (stepped_clock 1 301)) = true
  /\ anomaly_reported (app_on 300 (stepped_clock 1 (-301))) = true.
Proof.
  assert (Ht : threshold (app_on 300 (stepped_clock 1 301))
               == threshold (app_on 300 (stepped_clock 1 (-301))))
    by (vm_compute; reflexivity).
  assert (Hf : diff (sample (clock (app_on 300 (stepped_clock 1 301))))
               - diff (held (app_on 300 (stepped_clock 1 301))) == 301)
    by (vm_compute; reflexivity).
  assert (Hb : diff (sample (clock (app_on 300 (stepped_clock 1 (-301)))))
               - diff (held (app_on 300 (stepped_clock 1 (-301)))) == - (301))
    by (vm_compute; reflexivity).
  assert (Hm : 301 == threshold (app_on 300 (stepped_clock 1 301)) + 1)
    by (vm_compute; reflexivity).
  repeat (split; [assumption|]).
  exact (proj2 (detection_symmetric_in_direction _ _ 301 Ht Hf Hb) Hm).
Defined.

(** ** The held snapshot *)

(** C4, as the specification states it, does not hold for a monitor
    built with a negative threshold (which construction accepts): after
    a check, the next check sees the very same offset and still reports
    an anomaly, since a change of zero exceeds the threshold. *)
Lemma same_offset_reported_under_negative_threshold :
  diff (sample (clock (after monitor_time_change (app_on (-1) steady_clock))))
  == diff (held (after monitor_time_change (app_on (-1) steady_clock)))
  /\ anomaly_reported (after monitor_time_change (app_on (-1) steady_clock))
     = true.
Proof.
  split; vm_compute; reflexivity.
Qed.

(** C4 (amended): every check replaces the held snapshot by the new
    one, whether or not an anomaly was reported, and keeps the
    threshold; hence, when the threshold is not negative, a check that
    follows and whose snapshot has the same offset reports no anomaly. *)
Theorem check_replaces_held_snapshot (a : App) :
  held (after monitor_time_change a) = sample (clock a)
  /\ threshold (after monitor_time_change a) = threshold a
  /\ (0 <= threshold a ->
      diff (sample (clock (after monitor_time_change a)))
      == diff (sample (clock a)) ->
      anomaly_reported (after monitor_time_change a) = false).
Proof.
  unfold held, threshold at 1. rewrite time_monitor_after_check.
  cbn [_last_status _max_seconds]. repeat split.
  intros Hpos Hsame. apply anomaly_reported_false_iff.
  unfold delta, held, threshold. rewrite time_monitor_after_check.
  cbn [_last_status _max_seconds]. rewrite Hsame.
  setoid_replace (diff (sample (clock a)) - diff (sample (clock a))) with 0
    by ring.
  exact Hpos.
Qed.

Lemma check_replaces_held_snapshot_witness :
  0 <= threshold (app_on 300 (stepped_clock 1 3600))
  /\ diff (sample (clock (after monitor_time_change
                                (app_on 300 (stepped_clock 1 3600)))))
     == diff (sample (clock (app_on 300 (stepped_clock 1 3600))))
  /\ anomaly_reported (app_on 300 (stepped_clock 1 3600)) = true
  /\ anomaly_reported
       (after monitor_time_change (app_on 300 (stepped_clock 1 3600))) = false.
Proof.
  assert (Hpos : 0 <= threshold (app_on 300 (stepped_clock 1 3600)))
    by (vm_compute; discriminate).
  assert (Hsame :
            diff (sample (clock (after monitor_time_change
                                       (app_on 300 (stepped_clock 1 3600)))))
            == diff (sample (clock (app_on 300 (stepped_clock 1 3600)))))
    by (vm_compute; reflexivity).
  split; [exact Hpos|]. split; [exact Hsame|]. split; [reflexivity|].
  exact (proj2 (proj2 (check_replaces_held_snapshot _)) Hpos Hsame).
Defined.

(** ** Formatting of durations *)

Lemma string_app_nil_r (s : string) : s ++ "" = s.
Proof.
  induction s as [|ch s IH]; [reflexivity|].
  cbn [append]. rewrite IH. reflexivity.
Qed.

Lemma string_app_assoc (s1 s2 s3 : string) :
  (s1 ++ s2) ++ s3 = s1 ++ (s2 ++ s3).
Proof.
  induction s1 as [|ch s1 IH]; [reflexivity|].
  cbn [append]. rewrite IH. reflexivity.
Qed.

(** The chained comparison [days == hours == minutes == seconds == 0]
    holds exactly when the four values are zero. *)
Lemma chained_zero_test (d h m s : Z) :
  ((d =? h) && (h =? m) && (m =? s) && (s =? 0))%Z
  = ((d =? 0) && (h =? 0) && (m =? 0) && (s =? 0))%Z.
Proof.
  destruct (Z.eqb_spec d h), (Z.eqb_spec h m), (Z.eqb_spec m s),
    (Z.eqb_spec s 0), (Z.eqb_spec d 0), (Z.eqb_spec h 0), (Z.eqb_spec m 0);
    cbn [andb]; try reflexivity; lia.
Qed.

(** [format_timedelta] with its two [divmod] steps carried out. *)
Lemma format_timedelta_eq (td : Py.timedelta) :
  format_timedelta td
  = let d := Py.days td in
    let h := (Py.seconds td / 3600)%Z in
    let m := (Py.seconds td mod 3600 / 60)%Z in
    let s := ((Py.seconds td mod 3600) mod 60)%Z in
    if ((d =? 0) && (h =? 0) && (m =? 0) && (s =? 0))%Z
    then "0秒"
    else (if (d >? 0)%Z then Py.str d ++ "天" else "")
         ++ (if (h >? 0)%Z then Py.str h ++ "小时" else "")
         ++ (if (m >? 0)%Z then Py.str m ++ "分钟" else "")
         ++ (if (s >? 0)%Z then Py.str s ++ "秒" else "").
Proof.
  unfold format_timedelta, Py.divmod. cbv zeta.
  rewrite chained_zero_test.
  rewrite !string_app_assoc. reflexivity.
Qed.

Lemma positive_test (n : Z) : (0 <= n)%Z -> (n >? 0)%Z = negb (n =? 0)%Z.
Proof.
  intro H. destruct (Z.gtb_spec n 0), (Z.eqb_spec n 0); cbn; lia || reflexivity.
Qed.

(** The components that the code extracts are those of the whole
    seconds of the duration. *)
Lemma units_of_whole_seconds (td : Py.timedelta) :
  Py.normalised td ->
  units_of (whole_seconds td)
  = [ (Py.days td, "天");
      ((Py.seconds td / 3600)%Z, "小时");
      ((Py.seconds td mod 3600 / 60)%Z, "分钟");
      (((Py.seconds td mod 3600) mod 60)%Z, "秒") ].
Proof.
  intros [Hs _]. unfold units_of, whole_seconds.
  set (d := Py.days td) in *. set (s := Py.seconds td) in *.
  assert (Hdiv : ((d * 86400 + s) / 86400 = d)%Z)
    by (rewrite Z.add_comm, Z.div_add by lia; rewrite Z.div_small; lia).
  assert (Hmod : ((d * 86400 + s) mod 86400 = s)%Z)
    by (rewrite Z.add_comm, Z.mod_add by lia; apply Z.mod_small; lia).
  assert (H3600 : ((d * 86400 + s) mod 3600 = s mod 3600)%Z).
  { replace (d * 86400 + s)%Z with (s + (d * 24) * 3600)%Z by lia.
    apply Z.mod_add. lia. }
  assert (H60 : ((d * 86400 + s) mod 60 = (s mod 3600) mod 60)%Z).
  { replace (d * 86400 + s)%Z with (s + (d * 1440) * 60)%Z by lia.
    rewrite Z.mod_add by lia.
    rewrite (Z.div_mod s 3600) at 1 by lia.
    replace (3600 * (s / 3600) + s mod 3600)%Z
      with (s mod 3600 + (60 * (s / 3600)) * 60)%Z by lia.
    apply Z.mod_add. lia. }
  rewrite Hdiv, Hmod, H3600, H60. reflexivity.
Qed.

Lemma render_units (d h m s : Z) :
  (0 <= d)%Z -> (0 <= h)%Z -> (0 <= m)%Z -> (0 <= s)%Z ->
  (if ((d =? 0) && (h =? 0) && (m =? 0) && (s =? 0))%Z
   then "0秒"
   else (if (d >? 0)%Z then Py.str d ++ "天" else "")
        ++ (if (h >? 0)%Z then Py.str h ++ "小时" else "")
        ++ (if (m >? 0)%Z then Py.str m ++ "分钟" else "")
        ++ (if (s >? 0)%Z then Py.str s ++ "秒" else ""))
  = match filter (fun u => negb (fst u =? 0)%Z)
                 [(d, "天"); (h, "小时"); (m, "分钟"); (s, "秒")] with
    | [] => "0秒"
    | kept => String.concat "" (map (fun u => Py.str (fst u) ++ snd u) kept)
    end.
Proof.
  intros Hd Hh Hm Hs.
  rewrite !positive_test by assumption.
  cbn [filter fst].
  destruct (d =? 0)%Z, (h =? 0)%Z, (m =? 0)%Z, (s =? 0)%Z;
    cbn [negb andb map fst snd String.concat append];
    rewrite ?string_app_nil_r; reflexivity.
Qed.

(** C6: for a non-negative duration, [format_timedelta] is the rule of
    the specification: the whole seconds are split into days, hours,
    minutes and seconds by floor division, the units are rendered
    largest first, a unit appears only if its value is not zero, and a
    zero duration is rendered as the sentinel ["0秒"], not as the empty
    string. *)
Theorem format_timedelta_decomposes (td : Py.timedelta) :
  Py.normalised td ->
  (0 <= Py.days td)%Z ->
  format_timedelta td = spec_format (whole_seconds td)
  /\ (whole_seconds td = 0%Z -> format_timedelta td = "0秒").
Proof.
  intros Hn Hd.
  assert (Heq : format_timedelta td = spec_format (whole_seconds td)).
  { unfold spec_format. rewrite (units_of_whole_seconds td Hn).
    rewrite format_timedelta_eq. cbv zeta.
    destruct Hn as [Hs _].
    apply render_units.
    - exact Hd.
    - apply Z.div_pos; lia.
    - apply Z.div_pos; [apply Z.mod_pos_bound|]; lia.
    - apply Z.mod_pos_bound. lia. }
  split; [exact Heq|].
  intro Hz. rewrite Heq, Hz. reflexivity.
Qed.

Lemma format_timedelta_decomposes_witness :
  Py.normalised (Py.mk_timedelta 1 7384 0)
  /\ (0 <= Py.days (Py.mk_timedelta 1 7384 0))%Z
  /\ format_timedelta (Py.mk_timedelta 1 7384 0) = "1天2小时3分钟4秒"
  /\ spec_format (whole_seconds (Py.mk_timedelta 1 7384 0)) = "1天2小时3分钟4秒".
Proof.
  assert (Hn : Py.normalised (Py.mk_timedelta 1 7384 0))
    by (unfold Py.normalised; cbn; lia).
  assert (Hd : (0 <= Py.days (Py.mk_timedelta 1 7384 0))%Z) by (cbn; lia).
  split; [exact Hn|]. split; [exact Hd|].
  rewrite <- (proj1 (format_timedelta_decomposes _ Hn Hd)).
  split; reflexivity.
Defined.

(** Units whose value is zero are left out. *)
Example format_timedelta_omits_zero_units :
  format_timedelta (Py.mk_timedelta 1 180 0) = "1天3分钟"
  /\ format_timedelta (Py.mk_timedelta 0 3600 0) = "1小时"
  /\ format_timedelta (Py.mk_timedelta 0 0 0) = "0秒".
Proof. repeat split. Qed.

(** A non-negative duration shorter than one second is rendered as the
    sentinel ["0秒"]: the microseconds of the duration are not read. *)
Lemma sub_second_duration_formats_as_zero (td : Py.timedelta) :
  Py.normalised td ->
  (0 <= Py.total_microseconds td < 1000000)%Z ->
  format_timedelta td = "0秒".
Proof.
  intros [Hs Hus] Ht. unfold Py.total_microseconds in Ht.
  assert (Hd : Py.days td = 0%Z) by lia.
  assert (Hsec : Py.seconds td = 0%Z) by lia.
  rewrite format_timedelta_eq, Hd, Hsec. reflexivity.
Qed.

(** ** The report *)

(** C5: when a check reports an anomaly, the window shown is built from
    two durations and nothing else: the signed difference of the
    monotonic readings of the new and of the held snapshot, and the
    absolute difference of their wall-clock readings.  Its text says
    that in the last (monotonic duration, formatted) the system time
    changed by (wall-clock duration, formatted). *)
Theorem anomaly_report_carries_two_durations (a : App) :
  anomaly_reported a = true ->
  let w :=
    mk_WarningWindow
      "检测到时间突变"
      ("过去"
        ++ format_timedelta
             (Py.timedelta_seconds
                (elapsed_monotonic (sample (clock a)) (held a)))
        ++ "内，系统时间变化达到"
        ++ format_timedelta
             (Py.timedelta_seconds
                (elapsed_wall_clock (sample (clock a)) (held a)))) in
  full_screen (after monitor_time_change a) = (full_screen a ++ [w])%list
  /\ _warning_window (after monitor_time_change a) = Some w.
Proof.
  intros Hrep. cbv zeta.
  rewrite anomaly_reported_eq in Hrep.
  unfold after, monitor_time_change. rewrite monitor_eq, Hrep.
  rewrite show_time_jump_eq. cbn [snd full_screen _warning_window].
  split; reflexivity.
Qed.

(** The wall clock is set back by one hour between two checks that are
    two seconds apart. *)
Lemma anomaly_report_carries_two_durations_witness :
  anomaly_reported (app_on 300 (stepped_clock 1 (-3600))) = true
  /\ full_screen (after monitor_time_change (app_on 300 (stepped_clock 1 (-3600))))
     = [mk_WarningWindow "检测到时间突变" "过去2秒内，系统时间变化达到59分钟58秒"].
Proof.
  assert (H : anomaly_reported (app_on 300 (stepped_clock 1 (-3600))) = true)
    by (vm_compute; reflexivity).
  split; [exact H|].
  rewrite (proj1 (anomaly_report_carries_two_durations _ H)).
  vm_compute. reflexivity.
Defined.

(** Threshold of 300 s: a check that sees the offset unchanged shows
    nothing; the next one sees the wall clock stepped forward by 400 s
    and reports it. *)
Example unchanged_offset_then_forward_step :
  anomaly_reported (app_on 300 (stepped_clock 2 400)) = false
  /\ full_screen (after monitor_time_change (app_on 300 (stepped_clock 2 400)))
     = []
  /\ full_screen (after (checks show_time_jump 2)
                        (app_on 300 (stepped_clock 2 400)))
     = [mk_WarningWindow "检测到时间突变" "过去2秒内，系统时间变化达到6分钟42秒"].
Proof. repeat split. Qed.

(** ** Snapshots and their offset *)

(** C7: a snapshot's offset is its wall-clock reading minus its
    monotonic reading, both taken by the call of [get_time_status]
    that builds it; and in every state the application reaches, the
    snapshot held by the monitor is still that very sample of the
    latest reading of the two sources, offset included.  The test of a
    check reads the two snapshots through their offsets only. *)
Theorem snapshot_offset_is_wall_minus_monotonic :
  (forall c : Clock,
     exists s : Status,
       get_time_status c = (Return s, tick c)
       /\ timestamp s = time_source c (time_calls c)
       /\ monotonic_seconds s = monotonic_source c (monotonic_calls c)
       /\ diff s = timestamp s - monotonic_seconds s)
  /\ (forall a : App,
        reachable a ->
        held a = sample (previous (clock a)) /\ consistent (held a))
  /\ (forall a b : App,
        threshold a = threshold b ->
        diff (sample (clock a)) = diff (sample (clock b)) ->
        diff (held a) = diff (held b) ->
        anomaly_reported a = anomaly_reported b).
Proof.
  split; [|split].
  - intro c. exists (sample c). rewrite get_time_status_eq.
    repeat split.
  - intros a Hr.
    assert (H : held a = sample (previous (clock a))).
    { induction Hr as [warn c a Hl | a Hr IH].
      - rewrite launch_eq in Hl. injection Hl as <-. reflexivity.
      - unfold held. rewrite time_monitor_after_check, clock_after_check.
        reflexivity. }
    split; [exact H|]. rewrite H. reflexivity.
  - intros a b Ht Hs Hh. rewrite !anomaly_reported_eq.
    unfold delta. rewrite Ht, Hs, Hh. reflexivity.
Qed.

Lemma snapshot_offset_is_wall_minus_monotonic_witness :
  reachable (after monitor_time_change (app_on 300 (stepped_clock 1 3600)))
  /\ consistent
       (held (after monitor_time_change (app_on 300 (stepped_clock 1 3600)))).
Proof.
  assert (Hr : reachable
                 (after monitor_time_change (app_on 300 (stepped_clock 1 3600)))).
  { apply reach_check.
    apply (main_window_reachable (stepped_clock 1 3600)). reflexivity. }
  split; [exact Hr|].
  exact (proj2 (proj1 (proj2 snapshot_offset_is_wall_minus_monotonic) _ Hr)).
Defined.

(** ** Sequences of checks *)

Lemma offset_at_zero (c : Clock) : offset_at c 0 = diff (sample c).
Proof.
  unfold offset_at, sample. cbn [diff]. rewrite !Nat.add_0_r. reflexivity.
Qed.

Lemma offset_at_tick (c : Clock) (k : nat) :
  offset_at (tick c) k = offset_at c (S k).
Proof.
  unfold offset_at, tick. cbn [time_source time_calls monotonic_source
                                monotonic_calls].
  rewrite !Nat.add_succ_r. reflexivity.
Qed.

Lemma preceding_offset_advance (a : App) (k : nat) :
  preceding_offset (advance a) k = offset_at (clock a) k.
Proof.
  destruct k as [|j].
  - cbn [preceding_offset]. rewrite offset_at_zero. reflexivity.
  - cbn [preceding_offset]. change (clock (advance a)) with (tick (clock a)).
    apply offset_at_tick.
Qed.

Lemma delta_offsets (a : App) :
  delta a = Qabs (offset_at (clock a) 0 - preceding_offset a 0).
Proof. unfold delta. rewrite offset_at_zero. reflexivity. Qed.

Lemma full_screen_advance_by (n : nat) (a : App) :
  full_screen (advance_by n a) = full_screen a
  /\ _warning_window (advance_by n a) = _warning_window a
  /\ threshold (advance_by n a) = threshold a.
Proof.
  revert a. induction n as [|n IH]; intro a; [repeat split|].
  cbn [advance_by]. destruct (IH (advance a)) as (-> & -> & ->).
  repeat split.
Qed.

(** Offsets that stay within the threshold, seen from the state reached
    after one quiet check. *)
Lemma within_threshold_advance (n : nat) (a : App) :
  (forall k : nat,
     (k < S n)%nat ->
     Qabs (offset_at (clock a) k - preceding_offset a k) <= threshold a) ->
  forall k : nat,
    (k < n)%nat ->
    Qabs (offset_at (clock (advance a)) k - preceding_offset (advance a) k)
    <= threshold (advance a).
Proof.
  intros H k Hk. rewrite preceding_offset_advance.
  change (clock (advance a)) with (tick (clock a)). rewrite offset_at_tick.
  apply (H (S k)). lia.
Qed.

(** C8: along a sequence of checks in which the offset seen by each
    check differs from the offset seen by the check before (for the
    first one, the held offset) by at most the threshold, the callback
    is never invoked: whatever the callback is, the checks all return
    normally and leave the state that readings and snapshot updates
    alone produce, nothing is put on the screen, and no check of the
    sequence reports an anomaly. *)
Theorem no_anomaly_while_offset_within_threshold
    (callback : Callback) (n : nat) (a : App) :
  (forall k : nat,
     (k < n)%nat ->
     Qabs (offset_at (clock a) k - preceding_offset a k) <= threshold a) ->
  checks callback n a = (Return tt, advance_by n a)
  /\ full_screen (after (checks callback n) a) = full_screen a
  /\ (forall k : nat,
        (k < n)%nat ->
        anomaly_reported (after (checks callback k) a) = false).
Proof.
  revert a. induction n as [|n IH]; intros a H.
  - repeat split. intros k Hk. lia.
  - assert (Hq : delta a <= threshold a).
    { rewrite delta_offsets. apply H. lia. }
    destruct (IH (advance a) (within_threshold_advance n a H))
      as (Hrun & Hscr & Hrep).
    assert (Hstep : forall m, checks callback (S m) a
                              = checks callback m (advance a)).
    { intro m. cbn [checks]. unfold bind.
      rewrite (monitor_quiet callback a Hq). reflexivity. }
    split; [|split].
    + rewrite Hstep. exact Hrun.
    + unfold after in *. rewrite Hstep. exact Hscr.
    + intros [|k] Hk.
      * apply anomaly_reported_false_iff. exact Hq.
      * unfold after in *. rewrite Hstep. apply Hrep. lia.
Qed.

Lemma no_anomaly_while_offset_within_threshold_witness :
  (forall k : nat,
     (k < 5)%nat ->
     Qabs (offset_at (clock (app_on 300 (stepped_clock 3 200))) k
           - preceding_offset (app_on 300 (stepped_clock 3 200)) k)
     <= threshold (app_on 300 (stepped_clock 3 200)))
  /\ checks failing_callback 5 (app_on 300 (stepped_clock 3 200))
     = (Return tt, advance_by 5 (app_on 300 (stepped_clock 3 200)))
  /\ full_screen (after (checks failing_callback 5)
                        (app_on 300 (stepped_clock 3 200))) = [].
Proof.
  assert (H : forall k : nat,
             (k < 5)%nat ->
             Qabs (offset_at (clock (app_on 300 (stepped_clock 3 200))) k
                   - preceding_offset (app_on 300 (stepped_clock 3 200)) k)
             <= threshold (app_on 300 (stepped_clock 3 200))).
  { intros k Hk.
    do 5 (destruct k as [|k]; [vm_compute; discriminate|]).
    lia. }
  split; [exact H|].
  destruct (no_anomaly_while_offset_within_threshold
              failing_callback 5 (app_on 300 (stepped_clock 3 200)) H)
    as (Hrun & Hscr & _).
  split; [exact Hrun | exact Hscr].
Defined.

(** ** Order of update and notification *)

(** C10: on a check that detects an anomaly, the callback runs in a
    state whose monitor already holds the new snapshot.  Hence, if the
    callback raises (leaving the monitor alone), the check raises the
    same exception and the monitor nevertheless holds the new snapshot:
    the next check measures the change of offset from it, not from the
    one held before. *)
Theorem held_snapshot_replaced_before_callback
    (callback : Callback) (a : App) :
  threshold a < delta a ->
  (monitor callback a = callback (sample (clock a)) (held a) (advance a)
   /\ held (advance a) = sample (clock a))
  /\ (forall (e : Exception) (a' : App),
        callback (sample (clock a)) (held a) (advance a) = (Raise e, a') ->
        _time_monitor a' = _time_monitor (advance a) ->
        monitor callback a = (Raise e, a')
        /\ held (after (monitor callback) a) = sample (clock a)
        /\ delta (after (monitor callback) a)
           = Qabs (diff (sample (clock a')) - diff (sample (clock a)))).
Proof.
  intro Hfire.
  pose proof (monitor_fires callback a Hfire) as Hrun.
  split; [split; [exact Hrun | reflexivity]|].
  intros e a' Hraise Hframe.
  rewrite Hraise in Hrun.
  assert (Hheld : held (after (monitor callback) a) = sample (clock a)).
  { unfold after, held. rewrite Hrun. cbn [snd]. rewrite Hframe. reflexivity. }
  split; [exact Hrun|]. split; [exact Hheld|].
  unfold delta. rewrite Hheld.
  unfold after. rewrite Hrun. reflexivity.
Qed.

Lemma held_snapshot_replaced_before_callback_witness :
  threshold (app_on 300 (stepped_clock 1 3600))
  < delta (app_on 300 (stepped_clock 1 3600))
  /\ monitor failing_callback (app_on 300 (stepped_clock 1 3600))
     = (Raise RuntimeError, advance (app_on 300 (stepped_clock 1 3600)))
  /\ held (after (monitor failing_callback) (app_on 300 (stepped_clock 1 3600)))
     = sample (clock (app_on 300 (stepped_clock 1 3600))).
Proof.
  assert (Hfire : threshold (app_on 300 (stepped_clock 1 3600))
                  < delta (app_on 300 (stepped_clock 1 3600)))
    by (vm_compute; reflexivity).
  split; [exact Hfire|].
  destruct (proj2 (held_snapshot_replaced_before_callback
                     failing_callback _ Hfire)
                  RuntimeError
                  (advance (app_on 300 (stepped_clock 1 3600)))
                  eq_refl eq_refl)
    as (Hrun & Hheld & _).
  split; [exact Hrun | exact Hheld].
Defined.

(** ** Durations built from clock readings *)

(** [round_half_even] is within one half of its argument. *)
Lemma round_half_even_near (q : Q) :
  (2 * Py.round_half_even q * QDen q - QDen q <= 2 * Qnum q
   <= 2 * Py.round_half_even q * QDen q + QDen q)%Z.
Proof.
  unfold Py.round_half_even.
  destruct q as [n d]. cbn [Qnum Qden].
  pose proof (Z.div_mod n (Z.pos d) ltac:(lia)) as Hdm.
  pose proof (Z.mod_pos_bound n (Z.pos d) ltac:(lia)) as Hr.
  set (f := (n / Z.pos d)%Z) in *. set (r := (n mod Z.pos d)%Z) in *.
  destruct (Z.compare_spec (2 * r) (Z.pos d)) as [He|Hl|Hg].
  - destruct (Z.even f); nia.
  - nia.
  - nia.
Qed.

(** X17: seen through [get_time_warning], a jump of less than
    0.9999995 s becomes a duration of less than one second and is
    rendered as the sentinel. *)
Lemma sub_second_jump_formats_as_zero (x : Q) :
  0 <= x -> x < 9999995 # 10000000 ->
  format_timedelta (Py.timedelta_seconds x) = "0秒".
Proof.
  intros H0 H1.
  pose proof (round_half_even_near (x * 1000000)) as Hnear.
  unfold Qle in H0. unfold Qlt in H1.
  destruct x as [n d]. cbn [Qnum Qden Qmult] in *.
  unfold Py.timedelta_seconds, Py.divmod.
  set (t := Py.round_half_even ((n # d) * 1000000)) in *.
  assert (Ht : (0 <= t < 1000000)%Z) by nia.
  rewrite (Z.div_small t 1000000 Ht).
  rewrite format_timedelta_eq. reflexivity.
Qed.

(** [timedelta(seconds=x)] rounds to the nearest microsecond: a reading
    difference within half a microsecond of one second is a one-second
    duration by the time it is formatted. *)
Example timedelta_rounds_to_microseconds :
  Py.timedelta_seconds (9999996 # 10000000) = Py.mk_timedelta 0 1 0
  /\ format_timedelta (Py.timedelta_seconds (9999996 # 10000000)) = "1秒"
  /\ Py.timedelta_seconds (-3598) = Py.mk_timedelta (-1) 82802 0.
Proof. repeat split. Qed.

(** A reading difference below 0.9999995 s is, once rounded to the
    microsecond by [timedelta(seconds=x)], a duration of less than one
    second. *)
Lemma rounded_jump_is_sub_second (x : Q) :
  0 <= x -> x < 9999995 # 10000000 ->
  Py.normalised (Py.timedelta_seconds x)
  /\ (0 <= Py.total_microseconds (Py.timedelta_seconds x) < 1000000)%Z.
Proof.
  intros H0 H1.
  pose proof (round_half_even_near (x * 1000000)) as Hnear.
  unfold Qle in H0. unfold Qlt in H1.
  destruct x as [n d]. cbn [Qnum Qden Qmult] in *.
  unfold Py.timedelta_seconds, Py.divmod, Py.normalised, Py.total_microseconds.
  set (t := Py.round_half_even ((n # d) * 1000000)) in *.
  assert (Ht : (0 <= t < 1000000)%Z) by nia.
  rewrite (Z.div_small t 1000000 Ht), (Z.mod_small t 1000000 Ht).
  cbn [Py.days Py.seconds Py.microseconds].
  change (0 / 86400)%Z with 0%Z. change (0 mod 86400)%Z with 0%Z.
  lia.
Qed.

(** C9, as the specification states it, does not hold for every
    wall-clock jump of less than one second: a jump of 0.9999996 s is
    rounded by [timedelta(seconds=...)] to one second before it is
    formatted, and is rendered ["1秒"], not like a zero duration. *)
Lemma sub_second_jump_rendered_as_one_second :
  0 <= 9999996 # 10000000
  /\ 9999996 # 10000000 < 1
  /\ format_timedelta (Py.timedelta_seconds (9999996 # 10000000)) = "1秒"
  /\ format_timedelta (Py.timedelta_seconds 0) = "0秒"
  /\ get_time_warning
       (mk_Status (1700000002 + (9999996 # 10000000)) 5002 0)
       (mk_Status 1700000002 5002 0)
     = "过去0秒内，系统时间变化达到1秒".
Proof.
  split; [vm_compute; discriminate|].
  split; [reflexivity|].
  repeat split.
Qed.

(** C9 (amended): a non-negative duration shorter than one second is
    rendered as the sentinel ["0秒"], since only the whole days and
    whole seconds of the duration are read; and a wall-clock jump of
    less than 0.9999995 s, which [timedelta(seconds=...)] rounds to
    such a duration, is rendered exactly like a zero duration. *)
Theorem sub_second_formats_as_zero_up_to_rounding :
  (forall td : Py.timedelta,
     Py.normalised td ->
     (0 <= Py.total_microseconds td < 1000000)%Z ->
     format_timedelta td = "0秒")
  /\ (forall x : Q,
        0 <= x -> x < 9999995 # 10000000 ->
        (0 <= Py.total_microseconds (Py.timedelta_seconds x) < 1000000)%Z
        /\ format_timedelta (Py.timedelta_seconds x) = "0秒"
        /\ format_timedelta (Py.timedelta_seconds x)
           = format_timedelta (Py.timedelta_seconds 0)).
Proof.
  split.
  - exact sub_second_duration_formats_as_zero.
  - intros x H0 H1.
    destruct (rounded_jump_is_sub_second x H0 H1) as [Hn Ht].
    pose proof (sub_second_duration_formats_as_zero _ Hn Ht) as Hfmt.
    split; [exact Ht|]. split; [exact Hfmt|].
    rewrite Hfmt. reflexivity.
Qed.

Lemma sub_second_formats_as_zero_up_to_rounding_witness :
  (Py.normalised (Py.mk_timedelta 0 0 999999)
   /\ (0 <= Py.total_microseconds (Py.mk_timedelta 0 0 999999) < 1000000)%Z
   /\ format_timedelta (Py.mk_timedelta 0 0 999999) = "0秒")
  /\ (0 <= 9999994 # 10000000
      /\ 9999994 # 10000000 < 9999995 # 10000000
      /\ format_timedelta (Py.timedelta_seconds (9999994 # 10000000)) = "0秒").
Proof.
  assert (Hn : Py.normalised (Py.mk_timedelta 0 0 999999))
    by (unfold Py.normalised; cbn; lia).
  assert (Ht : (0 <= Py.total_microseconds (Py.mk_timedelta 0 0 999999)
                < 1000000)%Z)
    by (unfold Py.total_microseconds; cbn; lia).
  assert (H0 : 0 <= 9999994 # 10000000) by (vm_compute; discriminate).
  assert (H1 : 9999994 # 10000000 < 9999995 # 10000000) by reflexivity.
  split.
  - split; [exact Hn|]. split; [exact Ht|].
    exact (proj1 sub_second_formats_as_zero_up_to_rounding _ Hn Ht).
  - split; [exact H0|]. split; [exact H1|].
    exact (proj1 (proj2 (proj2 sub_second_formats_as_zero_up_to_rounding
                           _ H0 H1))).
Defined.

(** ** More on the detector *)

(** The periodic check of the main window always returns. *)
Lemma monitor_time_change_returns (a : App) :
  monitor_time_change a = (Return tt, after monitor_time_change a).
Proof.
  unfold after, monitor_time_change. rewrite monitor_eq.
  destruct (Py.gt (delta a) (threshold a)); reflexivity.
Qed.

Lemma checks_show_succ (n : nat) (a : App) :
  checks show_time_jump (S n) a
  = checks show_time_jump n (after monitor_time_change a).
Proof.
  cbn [checks]. unfold bind.
  fold monitor_time_change. rewrite monitor_time_change_returns.
  reflexivity.
Qed.

Lemma threshold_after_check (a : App) :
  threshold (after monitor_time_change a) = threshold a.
Proof.
  unfold threshold at 1. rewrite time_monitor_after_check. reflexivity.
Qed.

Lemma held_after_check (a : App) :
  held (after monitor_time_change a) = sample (clock a).
Proof.
  unfold held. rewrite time_monitor_after_check. reflexivity.
Qed.

(** X1: a monitor built with a negative threshold reports an anomaly at
    every check, whatever the clocks read: [n] checks put [n] warnings
    on the screen. *)
Theorem negative_threshold_reports_every_check (n : nat) (a : App) :
  threshold a < 0 ->
  anomaly_reported a = true
  /\ length (full_screen (after (checks show_time_jump n) a))
     = (length (full_screen a) + n)%nat.
Proof.
  intro Hneg.
  assert (Hfire : forall b : App, threshold b < 0 -> anomaly_reported b = true).
  { intros b Hb. apply anomaly_reported_iff.
    pose proof (Qabs_nonneg (diff (sample (clock b)) - diff (held b))) as Hd.
    unfold delta. lra. }
  split; [exact (Hfire a Hneg)|].
  revert a Hneg. induction n as [|n IH]; intros a Hneg.
  - cbn. lia.
  - unfold after in *. rewrite checks_show_succ.
    fold (after monitor_time_change a).
    rewrite IH by (rewrite threshold_after_check; exact Hneg).
    rewrite full_screen_after_check.
    rewrite <- anomaly_reported_eq, (Hfire a Hneg).
    rewrite length_app. cbn [length]. lia.
Qed.

Lemma negative_threshold_reports_every_check_witness :
  threshold (app_on (-5) steady_clock) < 0
  /\ length (full_screen (after (checks show_time_jump 3)
                                (app_on (-5) steady_clock))) = 3%nat.
Proof.
  assert (H : threshold (app_on (-5) steady_clock) < 0) by reflexivity.
  split; [exact H|].
  exact (proj2 (negative_threshold_reports_every_check 3 _ H)).
Defined.


(** Checks that all stay within the threshold run no callback. *)
Lemma quiet_checks (callback : Callback) (n : nat) (a : App) :
  (forall k : nat,
     (k < n)%nat ->
     Qabs (offset_at (clock a) k - preceding_offset a k) <= threshold a) ->
  checks callback n a = (Return tt, advance_by n a).
Proof.
  revert a. induction n as [|n IH]; intros a H; [reflexivity|].
  assert (Hq : delta a <= threshold a)
    by (rewrite delta_offsets; apply H; lia).
  cbn [checks advance_by]. unfold bind.
  rewrite (monitor_quiet callback a Hq).
  apply IH. apply within_threshold_advance. exact H.
Qed.

Lemma held_advance_by (n : nat) (a : App) :
  diff (held (advance_by (S n) a)) = offset_at (clock a) n.
Proof.
  revert a. induction n as [|n IH]; intro a.
  - cbn [advance_by]. rewrite offset_at_zero. reflexivity.
  - change (advance_by (S (S n)) a) with (advance_by (S n) (advance a)).
    rewrite IH. change (clock (advance a)) with (tick (clock a)).
    apply offset_at_tick.
Qed.

Lemma inject_Z_of_nat_succ (k : nat) :
  inject_Z (Z.of_nat (S k)) == inject_Z (Z.of_nat k) + 1.
Proof.
  rewrite Nat2Z.inj_succ. unfold Z.succ. rewrite inject_Z_plus. reflexivity.
Qed.

Lemma drifting_offset (step : Q) (k : nat) :
  offset_at (tick (drifting_clock step)) k
  == inject_Z (Z.of_nat (S k)) * step.
Proof.
  unfold offset_at, tick, drifting_clock.
  cbn [time_source time_calls monotonic_source monotonic_calls Nat.add].
  ring.
Qed.

(** Offsets that move by [step] at each of the next [n] readings are,
    at the k-th of them, [k + 1] steps away from the held offset. *)
Lemma offsets_telescope (step : Q) (n : nat) (a : App) :
  (forall k : nat,
     (k < n)%nat ->
     offset_at (clock a) k - preceding_offset a k == step) ->
  forall k : nat,
    (k < n)%nat ->
    offset_at (clock a) k - diff (held a) == inject_Z (Z.of_nat (S k)) * step.
Proof.
  intros H k. induction k as [|k IH]; intro Hk.
  - pose proof (H 0%nat Hk) as E. cbn [preceding_offset] in E.
    rewrite E. change (inject_Z (Z.of_nat 1)) with 1. ring.
  - pose proof (H (S k) Hk) as E. cbn [preceding_offset] in E.
    assert (Hk' : (k < n)%nat) by lia.
    pose proof (IH Hk') as E'.
    rewrite (inject_Z_of_nat_succ (S k)).
    setoid_replace (offset_at (clock a) (S k) - diff (held a))
      with ((offset_at (clock a) (S k) - offset_at (clock a) k)
            + (offset_at (clock a) k - diff (held a))) by ring.
    rewrite E, E'. ring.
Qed.

(** The offsets of [drifting_clock] move by [step] at every reading. *)
Lemma drifting_clock_steps (warn_seconds step : Q) (k : nat) :
  offset_at (clock (app_on warn_seconds (drifting_clock step))) k
  - preceding_offset (app_on warn_seconds (drifting_clock step)) k
  == step.
Proof.
  change (clock (app_on warn_seconds (drifting_clock step)))
    with (tick (drifting_clock step)).
  destruct k as [|j]; cbn [preceding_offset].
  - rewrite drifting_offset. unfold app_on, held, sample, drifting_clock.
    cbn. ring.
  - change (clock (app_on warn_seconds (drifting_clock step)))
      with (tick (drifting_clock step)).
    rewrite !drifting_offset, (inject_Z_of_nat_succ (S j)). ring.
Qed.

(** X3: drift that accumulates slowly is never reported.  Whatever the
    state and the clocks, if the offset moves by the same [step] at
    each of the next [n] readings and [step] is within the threshold,
    the [n] checks show nothing, although the offset held at the end is
    [n * step] away from the one held at the start. *)
Theorem slow_drift_is_never_reported (step : Q) (n : nat) (a : App) :
  (forall k : nat,
     (k < n)%nat ->
     offset_at (clock a) k - preceding_offset a k == step) ->
  Qabs step <= threshold a ->
  full_screen (after (checks show_time_jump n) a) = full_screen a
  /\ diff (held (after (checks show_time_jump n) a)) - diff (held a)
     == inject_Z (Z.of_nat n) * step.
Proof.
  intros Hmove Hstep.
  assert (Hq : forall k : nat,
             (k < n)%nat ->
             Qabs (offset_at (clock a) k - preceding_offset a k)
             <= threshold a).
  { intros k Hk. rewrite (Hmove k Hk). exact Hstep. }
  unfold after. rewrite (quiet_checks show_time_jump n a Hq). cbn [snd].
  split.
  - destruct (full_screen_advance_by n a) as (-> & _). reflexivity.
  - destruct n as [|n].
    + cbn [advance_by]. change (inject_Z (Z.of_nat 0)) with 0. ring.
    + rewrite held_advance_by.
      apply (offsets_telescope step (S n) a Hmove). lia.
Qed.

Lemma slow_drift_is_never_reported_witness :
  (forall k : nat,
     (k < 100)%nat ->
     offset_at (clock (app_on 300 (drifting_clock 299))) k
     - preceding_offset (app_on 300 (drifting_clock 299)) k == 299)
  /\ Qabs 299 <= threshold (app_on 300 (drifting_clock 299))
  /\ full_screen (after (checks show_time_jump 100)
                        (app_on 300 (drifting_clock 299))) = []
  /\ diff (held (after (checks show_time_jump 100)
                       (app_on 300 (drifting_clock 299))))
     - diff (held (app_on 300 (drifting_clock 299)))
     == inject_Z (Z.of_nat 100) * 299.
Proof.
  assert (Hmove : forall k : nat,
             (k < 100)%nat ->
             offset_at (clock (app_on 300 (drifting_clock 299))) k
             - preceding_offset (app_on 300 (drifting_clock 299)) k == 299)
    by (intros k _; apply drifting_clock_steps).
  assert (Hstep : Qabs 299 <= threshold (app_on 300 (drifting_clock 299)))
    by (vm_compute; discriminate).
  split; [exact Hmove|]. split; [exact Hstep|].
  exact (slow_drift_is_never_reported 299 100 _ Hmove Hstep).
Defined.

Lemma warning_window_after_check (a : App) :
  _warning_window (after monitor_time_change a)
  = if Py.gt (delta a) (threshold a)
    then Some (mk_WarningWindow
                 "检测到时间突变"
                 (get_time_warning (sample (clock a)) (held a)))
    else _warning_window a.
Proof. check_cases a. Qed.

(** X4: in every state the application reaches, the window referred to
    by [_warning_window] is the one shown last ([None] when none was
    shown), and every window shown is titled ["检测到时间突变"]. *)
Theorem warning_window_is_latest_shown (a : App) :
  reachable a ->
  _warning_window a = last (map Some (full_screen a)) None
  /\ Forall (fun w => title w = "检测到时间突变") (full_screen a).
Proof.
  intro Hr. induction Hr as [warn c a Hl | a Hr [IHw IHt]].
  - rewrite launch_eq in Hl. injection Hl as <-. split; [reflexivity|].
    constructor.
  - rewrite warning_window_after_check, full_screen_after_check.
    destruct (Py.gt (delta a) (threshold a)).
    + split.
      * rewrite map_app. cbn [map]. rewrite last_last. reflexivity.
      * apply Forall_app. split; [exact IHt|].
        constructor; [reflexivity|constructor].
    + split; assumption.
Qed.

Lemma warning_window_is_latest_shown_witness :
  reachable (after monitor_time_change (app_on 300 (stepped_clock 1 3600)))
  /\ _warning_window
       (after monitor_time_change (app_on 300 (stepped_clock 1 3600)))
     = Some (mk_WarningWindow "检测到时间突变"
                              "过去2秒内，系统时间变化达到1小时2秒").
Proof.
  assert (Hr : reachable
                 (after monitor_time_change (app_on 300 (stepped_clock 1 3600)))).
  { apply reach_check.
    apply (reach_launch 300 (stepped_clock 1 3600)). reflexivity. }
  split; [exact Hr|].
  rewrite (proj1 (warning_window_is_latest_shown _ Hr)).
  vm_compute. reflexivity.
Defined.

(** X5: the text of the warning does not tell the direction of the
    jump: exchanging the wall-clock readings of the two snapshots, with
    the monotonic readings kept, gives the same text. *)
Theorem warning_text_ignores_direction (t0 t1 m0 m1 d0 d1 d0' d1' : Q) :
  get_time_warning (mk_Status t1 m1 d1) (mk_Status t0 m0 d0)
  = get_time_warning (mk_Status t0 m1 d1') (mk_Status t1 m0 d0').
Proof.
  unfold get_time_warning. cbn [timestamp monotonic_seconds].
  rewrite (Qabs_Qminus t1 t0). reflexivity.
Qed.

(** ** More on the formatting of durations *)

Lemma sub_second_jump_formats_as_zero_witness :
  0 <= 1 # 2 /\ 1 # 2 < 9999995 # 10000000
  /\ format_timedelta (Py.timedelta_seconds (1 # 2)) = "0秒".
Proof.
  assert (H0 : 0 <= 1 # 2) by (vm_compute; discriminate).
  assert (H1 : 1 # 2 < 9999995 # 10000000) by reflexivity.
  split; [exact H0|]. split; [exact H1|].
  exact (sub_second_jump_formats_as_zero (1 # 2) H0 H1).
Defined.

(** [format_timedelta] renders the units that [components] extracts. *)
Lemma format_timedelta_components (td : Py.timedelta) :
  format_timedelta td
  = let '(d, h, m, s) := components td in
    if ((d =? 0) && (h =? 0) && (m =? 0) && (s =? 0))%Z
    then "0秒"
    else (if (d >? 0)%Z then Py.str d ++ "天" else "")
         ++ (if (h >? 0)%Z then Py.str h ++ "小时" else "")
         ++ (if (m >? 0)%Z then Py.str m ++ "分钟" else "")
         ++ (if (s >? 0)%Z then Py.str s ++ "秒" else "").
Proof. rewrite format_timedelta_eq. reflexivity. Qed.

Lemma components_bounds (td : Py.timedelta) :
  Py.normalised td ->
  let '(d, h, m, s) := components td in
  d = Py.days td
  /\ (0 <= h < 24)%Z /\ (0 <= m < 60)%Z /\ (0 <= s < 60)%Z
  /\ (d * 86400 + h * 3600 + m * 60 + s = whole_seconds td)%Z.
Proof.
  intros [Hs _]. unfold components, Py.divmod, whole_seconds.
  set (sec := Py.seconds td) in *.
  pose proof (Z.div_mod sec 3600 ltac:(lia)) as H1.
  pose proof (Z.mod_pos_bound sec 3600 ltac:(lia)) as B1.
  pose proof (Z.div_mod (sec mod 3600) 60 ltac:(lia)) as H2.
  pose proof (Z.mod_pos_bound (sec mod 3600) 60 ltac:(lia)) as B2.
  repeat split; lia.
Qed.

(** X6: the units extracted from a duration are in range and add up to
    its whole seconds: fewer than 24 hours, fewer than 60 minutes,
    fewer than 60 seconds, none of them negative, and days, hours,
    minutes and seconds together give back days * 86400 + seconds. *)
Theorem components_in_range_and_exact (td : Py.timedelta) :
  Py.normalised td ->
  let '(d, h, m, s) := components td in
  d = Py.days td
  /\ (0 <= h < 24)%Z /\ (0 <= m < 60)%Z /\ (0 <= s < 60)%Z
  /\ (d * 86400 + h * 3600 + m * 60 + s = whole_seconds td)%Z.
Proof. exact (components_bounds td). Qed.

Lemma components_in_range_and_exact_witness :
  Py.normalised (Py.mk_timedelta 1 7384 0)
  /\ components (Py.mk_timedelta 1 7384 0) = (1, 2, 3, 4)%Z
  /\ (1 * 86400 + 2 * 3600 + 3 * 60 + 4
      = whole_seconds (Py.mk_timedelta 1 7384 0))%Z.
Proof.
  assert (Hn : Py.normalised (Py.mk_timedelta 1 7384 0))
    by (unfold Py.normalised; cbn; lia).
  split; [exact Hn|]. split; [reflexivity|].
  pose proof (components_in_range_and_exact _ Hn) as H.
  change (components (Py.mk_timedelta 1 7384 0)) with (1, 2, 3, 4)%Z in H.
  exact (proj2 (proj2 (proj2 (proj2 H)))).
Defined.

Lemma string_app_empty (s1 s2 : string) :
  s1 ++ s2 = "" -> s1 = "" /\ s2 = "".
Proof.
  destruct s1 as [|ch s1]; cbn [append]; intro H.
  - split; [reflexivity | exact H].
  - discriminate H.
Qed.

(** A unit that is rendered is not empty. *)
Lemma rendered_unit_empty (n : Z) (suffix : string) :
  suffix <> "" ->
  (if (n >? 0)%Z then Py.str n ++ suffix else "") = "" ->
  (n <= 0)%Z.
Proof.
  intros Hsfx H. destruct (Z.gtb_spec n 0) as [Hpos|Hle]; [|exact Hle].
  apply string_app_empty in H. destruct H as [_ H]. contradiction.
Qed.

(** X7: a duration that is not negative is never rendered as the empty
    string. *)
Theorem format_timedelta_not_empty (td : Py.timedelta) :
  Py.normalised td ->
  (0 <= Py.days td)%Z ->
  format_timedelta td <> "".
Proof.
  intros Hn Hd Hempty.
  pose proof (components_bounds td Hn) as Hc.
  rewrite format_timedelta_components in Hempty.
  destruct (components td) as [[[d h] m] s].
  destruct Hc as (-> & Hh & Hm & Hs & _).
  destruct ((Py.days td =? 0) && (h =? 0) && (m =? 0) && (s =? 0))%Z eqn:Hz;
    [discriminate Hempty|].
  apply string_app_empty in Hempty. destruct Hempty as [E1 Hempty].
  apply string_app_empty in Hempty. destruct Hempty as [E2 Hempty].
  apply string_app_empty in Hempty. destruct Hempty as [E3 E4].
  apply rendered_unit_empty in E1; [|discriminate].
  apply rendered_unit_empty in E2; [|discriminate].
  apply rendered_unit_empty in E3; [|discriminate].
  apply rendered_unit_empty in E4; [|discriminate].
  replace (Py.days td) with 0%Z in Hz by lia.
  replace h with 0%Z in Hz by lia.
  replace m with 0%Z in Hz by lia.
  replace s with 0%Z in Hz by lia.
  discriminate Hz.
Qed.

Lemma format_timedelta_not_empty_witness :
  Py.normalised (Py.mk_timedelta 0 0 250000)
  /\ (0 <= Py.days (Py.mk_timedelta 0 0 250000))%Z
  /\ format_timedelta (Py.mk_timedelta 0 0 250000) <> "".
Proof.
  assert (Hn : Py.normalised (Py.mk_timedelta 0 0 250000))
    by (unfold Py.normalised; cbn; lia).
  assert (Hd : (0 <= Py.days (Py.mk_timedelta 0 0 250000))%Z) by (cbn; lia).
  split; [exact Hn|]. split; [exact Hd|].
  exact (format_timedelta_not_empty _ Hn Hd).
Defined.

(** X8: the days of a negative duration are silently left out: such a
    duration is rendered like its seconds alone, and as the empty
    string when it is a whole number of days. *)
Theorem format_timedelta_drops_negative_days (td : Py.timedelta) :
  Py.normalised td ->
  (Py.days td < 0)%Z ->
  format_timedelta td
  = if (Py.seconds td =? 0)%Z
    then ""
    else format_timedelta
           (Py.mk_timedelta 0 (Py.seconds td) (Py.microseconds td)).
Proof.
  intros Hn Hd.
  pose proof (components_bounds td Hn) as Hc.
  rewrite !format_timedelta_components.
  unfold components, whole_seconds in *. unfold Py.divmod in *.
  cbn [Py.days Py.seconds Py.microseconds].
  set (h := (Py.seconds td / 3600)%Z) in *.
  set (m := (Py.seconds td mod 3600 / 60)%Z) in *.
  set (s := ((Py.seconds td mod 3600) mod 60)%Z) in *.
  destruct Hc as (_ & Hh & Hm & Hs & Hsum).
  assert (Hneg : (Py.days td =? 0)%Z = false) by (apply Z.eqb_neq; lia).
  assert (Hgt : (Py.days td >? 0)%Z = false)
    by (destruct (Z.gtb_spec (Py.days td) 0); [lia | reflexivity]).
  rewrite Hneg, Hgt. cbn [andb].
  destruct (Z.eqb_spec (Py.seconds td) 0) as [Hz|Hnz].
  - replace h with 0%Z by lia. replace m with 0%Z by lia.
    replace s with 0%Z by lia. reflexivity.
  - assert (Htest : ((h =? 0) && (m =? 0) && (s =? 0))%Z = false).
    { destruct (Z.eqb_spec h 0), (Z.eqb_spec m 0), (Z.eqb_spec s 0);
        try reflexivity. lia. }
    change (0 =? 0)%Z with true. cbn [andb]. rewrite Htest.
    change (0 >? 0)%Z with false. reflexivity.
Qed.

Lemma format_timedelta_drops_negative_days_witness :
  Py.normalised (Py.timedelta_seconds (-1))
  /\ (Py.days (Py.timedelta_seconds (-1)) < 0)%Z
  /\ format_timedelta (Py.timedelta_seconds (-1)) = "23小时59分钟59秒"
  /\ format_timedelta (Py.mk_timedelta (-1) 0 0) = "".
Proof.
  assert (Hn : Py.normalised (Py.timedelta_seconds (-1)))
    by (unfold Py.normalised; cbn; lia).
  assert (Hd : (Py.days (Py.timedelta_seconds (-1)) < 0)%Z) by (cbn; lia).
  split; [exact Hn|]. split; [exact Hd|].
  rewrite (format_timedelta_drops_negative_days _ Hn Hd).
  split; reflexivity.
Defined.

(** For a duration that is not negative, [format_timedelta] follows the
    rule [spec_format]. *)
Lemma format_timedelta_spec (td : Py.timedelta) :
  Py.normalised td ->
  (0 <= Py.days td)%Z ->
  format_timedelta td = spec_format (whole_seconds td).
Proof.
  intros Hn Hd. unfold spec_format.
  rewrite (units_of_whole_seconds td Hn), format_timedelta_eq. cbv zeta.
  destruct Hn as [Hs _].
  apply render_units; [exact Hd| | |].
  - apply Z.div_pos; lia.
  - apply Z.div_pos; [apply Z.mod_pos_bound|]; lia.
  - apply Z.mod_pos_bound. lia.
Qed.

Lemma timedelta_seconds_fields (x : Q) :
  Py.timedelta_seconds x
  = Py.mk_timedelta
      (Py.round_half_even (x * 1000000) / 1000000 / 86400)
      ((Py.round_half_even (x * 1000000) / 1000000) mod 86400)
      (Py.round_half_even (x * 1000000) mod 1000000).
Proof. reflexivity. Qed.

Lemma timedelta_seconds_normalised (x : Q) :
  Py.normalised (Py.timedelta_seconds x).
Proof.
  rewrite timedelta_seconds_fields. unfold Py.normalised.
  cbn [Py.seconds Py.microseconds].
  split; apply Z.mod_pos_bound; lia.
Qed.

Lemma round_half_even_nonneg (x : Q) :
  0 <= x -> (0 <= Py.round_half_even (x * 1000000))%Z.
Proof.
  intro H0.
  pose proof (round_half_even_near (x * 1000000)) as Hnear.
  unfold Qle in H0. destruct x as [n d]. cbn [Qnum Qden Qmult] in *.
  nia.
Qed.

Lemma round_half_even_integer (n : Z) :
  Py.round_half_even (inject_Z n * 1000000) = (n * 1000000)%Z.
Proof.
  unfold Py.round_half_even, inject_Z. cbn [Qnum Qden Qmult Pos.mul].
  rewrite Z.mod_1_r, Z.div_1_r. reflexivity.
Qed.

(** X9: a reading difference [x >= 0] appears in the warning as the
    whole seconds of [x] rounded to the microsecond, rendered by the
    rule [spec_format]; for a whole number [n] of seconds this is the
    rendering of [n]. *)
Theorem elapsed_seconds_rendering (x : Q) :
  0 <= x ->
  format_timedelta (Py.timedelta_seconds x)
  = spec_format (Py.round_half_even (x * 1000000) / 1000000)
  /\ (forall n : Z,
        x = inject_Z n ->
        format_timedelta (Py.timedelta_seconds x) = spec_format n).
Proof.
  intro H0.
  assert (Hgen : format_timedelta (Py.timedelta_seconds x)
                 = spec_format (Py.round_half_even (x * 1000000) / 1000000)).
  { pose proof (round_half_even_nonneg x H0) as Ht.
    rewrite format_timedelta_spec.
    - f_equal. rewrite timedelta_seconds_fields. unfold whole_seconds.
      cbn [Py.days Py.seconds].
      set (s := (Py.round_half_even (x * 1000000) / 1000000)%Z).
      pose proof (Z.div_mod s 86400 ltac:(lia)). lia.
    - apply timedelta_seconds_normalised.
    - rewrite timedelta_seconds_fields. cbn [Py.days].
      apply Z.div_pos; [apply Z.div_pos|]; lia. }
  split; [exact Hgen|].
  intros n ->. rewrite Hgen, round_half_even_integer.
  rewrite Z.div_mul by lia. reflexivity.
Qed.

Lemma elapsed_seconds_rendering_witness :
  0 <= inject_Z 3598
  /\ format_timedelta (Py.timedelta_seconds (inject_Z 3598)) = "59分钟58秒"
  /\ spec_format 3598 = "59分钟58秒".
Proof.
  assert (H0 : 0 <= inject_Z 3598) by (vm_compute; discriminate).
  split; [exact H0|].
  rewrite (proj2 (elapsed_seconds_rendering (inject_Z 3598) H0)
                 3598%Z eq_refl).
  split; reflexivity.
Defined.

(** ** Local time *)

(** Quotient and remainder of a division, as facts for [lia]. *)
Ltac euclid a b :=
  pose proof (Z.div_mod a b ltac:(lia));
  pose proof (Z.mod_pos_bound a b ltac:(lia)).

(** Hours, minutes and seconds are recovered from the second of the
    day. *)
Lemma split_second_of_day (h m s : Z) :
  (0 <= h < 24)%Z -> (0 <= m < 60)%Z -> (0 <= s < 60)%Z ->
  ((h * 3600 + m * 60 + s) / 3600 = h
   /\ (h * 3600 + m * 60 + s) mod 3600 / 60 = m
   /\ ((h * 3600 + m * 60 + s) mod 3600) mod 60 = s)%Z.
Proof.
  intros Hh Hm Hs.
  euclid (h * 3600 + m * 60 + s)%Z 3600%Z.
  euclid ((h * 3600 + m * 60 + s) mod 3600)%Z 60%Z.
  repeat split; lia.
Qed.

(** Eight hours later: the second of the day and the carry into the
    date. *)
Lemma eight_hours_later (h m s : Z) :
  (0 <= h < 24)%Z -> (0 <= m < 60)%Z -> (0 <= s < 60)%Z ->
  ((h * 3600 + m * 60 + s + 28800) mod 86400
   = (h + 8) mod 24 * 3600 + m * 60 + s
   /\ (h * 3600 + m * 60 + s + 28800) / 86400
      = if h <? 16 then 0 else 1)%Z.
Proof.
  intros Hh Hm Hs.
  euclid (h * 3600 + m * 60 + s + 28800)%Z 86400%Z.
  euclid (h + 8)%Z 24%Z.
  destruct (Z.ltb_spec h 16); split; lia.
Qed.

(** [get_local_time] on a valid [datetime], with the arithmetic of
    [datetime + timedelta] carried out. *)
Lemma get_local_time_eq (utc_time : datetime) :
  valid_datetime utc_time ->
  get_local_time utc_time
  = let day :=
      (ordinal utc_time + (if (hour utc_time <? 16)%Z then 0 else 1))%Z in
    if (day <=? _MAXORDINAL)%Z
    then Return (mk_datetime day ((hour utc_time + 8) mod 24)
                             (minute utc_time) (second utc_time)
                             (microsecond utc_time))
    else Raise OverflowError.
Proof.
  destruct utc_time as [o h m s us].
  unfold valid_datetime. cbn [ordinal hour minute second microsecond].
  intros (Ho & Hh & Hm & Hs & Hus).
  unfold get_local_time, datetime_add, timedelta_hours, timedelta_add,
    timedelta_of, Py.divmod.
  cbn [Py.days Py.seconds Py.microseconds]. cbv zeta.
  cbn [ordinal hour minute second microsecond].
  rewrite (Z.div_small us 1000000), (Z.mod_small us 1000000) by lia.
  change (0 / 1000000)%Z with 0%Z. change (0 mod 1000000)%Z with 0%Z.
  change ((8 * 3600 + 0) mod 86400)%Z with 28800%Z.
  change ((8 * 3600 + 0) / 86400)%Z with 0%Z.
  rewrite !Z.add_0_r.
  rewrite (Z.div_small us 1000000), (Z.mod_small us 1000000) by lia.
  rewrite !Z.add_0_r.
  rewrite (Z.div_small (h * 3600 + m * 60 + s) 86400),
    (Z.mod_small (h * 3600 + m * 60 + s) 86400) by lia.
  rewrite !Z.add_0_r.
  destruct (eight_hours_later h m s Hh Hm Hs) as [Hmod Hdiv].
  rewrite Hmod, Hdiv.
  assert (Hh' : (0 <= (h + 8) mod 24 < 24)%Z) by (apply Z.mod_pos_bound; lia).
  destruct (split_second_of_day ((h + 8) mod 24) m s Hh' Hm Hs)
    as (E1 & E2 & E3).
  rewrite E1, E2, E3.
  assert (Hpos : (0 <? o + (if (h <? 16)%Z then 0 else 1))%Z = true)
    by (apply Z.ltb_lt; destruct (h <? 16)%Z; lia).
  rewrite Hpos. reflexivity.
Qed.

(** X10: [get_local_time] shows the time eight hours later: unless the
    result falls after the last date, it returns a valid [datetime]
    whose hour is the given hour plus eight modulo 24, whose minute,
    second and microsecond are unchanged, and whose date is the same
    day before 16:00 and the next day from 16:00 on. *)
Theorem get_local_time_is_eight_hours_later (utc_time : datetime) :
  valid_datetime utc_time ->
  (ordinal utc_time < _MAXORDINAL \/ hour utc_time < 16)%Z ->
  exists local_time : datetime,
    get_local_time utc_time = Return local_time
    /\ valid_datetime local_time
    /\ hour local_time = ((hour utc_time + 8) mod 24)%Z
    /\ minute local_time = minute utc_time
    /\ second local_time = second utc_time
    /\ microsecond local_time = microsecond utc_time
    /\ ordinal local_time
       = (ordinal utc_time + (if (hour utc_time <? 16)%Z then 0 else 1))%Z.
Proof.
  intros Hv Hroom.
  rewrite (get_local_time_eq utc_time Hv). cbv zeta.
  destruct Hv as (Ho & Hh & Hm & Hs & Hus).
  assert (Hday : (ordinal utc_time
                  + (if (hour utc_time <? 16)%Z then 0 else 1)
                  <= _MAXORDINAL)%Z)
    by (destruct (Z.ltb_spec (hour utc_time) 16); cbv iota in *; lia).
  apply Z.leb_le in Hday. rewrite Hday.
  eexists. split; [reflexivity|].
  unfold valid_datetime. cbn [ordinal hour minute second microsecond].
  apply Z.leb_le in Hday.
  pose proof (Z.mod_pos_bound (hour utc_time + 8) 24 ltac:(lia)) as Hmod.
  revert Hday. destruct (hour utc_time <? 16)%Z; intro Hday;
    repeat split; lia.
Qed.

Lemma get_local_time_is_eight_hours_later_witness :
  valid_datetime (mk_datetime 738000 17 30 15 0)
  /\ (ordinal (mk_datetime 738000 17 30 15 0) < _MAXORDINAL
      \/ hour (mk_datetime 738000 17 30 15 0) < 16)%Z
  /\ exists local_time : datetime,
       get_local_time (mk_datetime 738000 17 30 15 0) = Return local_time
       /\ hour local_time = 1%Z
       /\ ordinal local_time = 738001%Z.
Proof.
  assert (Hv : valid_datetime (mk_datetime 738000 17 30 15 0))
    by (unfold valid_datetime, _MAXORDINAL; cbn; lia).
  assert (Hroom : (ordinal (mk_datetime 738000 17 30 15 0) < _MAXORDINAL
                   \/ hour (mk_datetime 738000 17 30 15 0) < 16)%Z)
    by (left; reflexivity).
  split; [exact Hv|]. split; [exact Hroom|].
  destruct (get_local_time_is_eight_hours_later _ Hv Hroom)
    as (local_time & Hrun & _ & Hhour & _ & _ & _ & Hday).
  exists local_time. split; [exact Hrun|].
  split; [rewrite Hhour | rewrite Hday]; reflexivity.
Defined.

(** X11: [get_local_time] raises [OverflowError] exactly on the last
    eight hours of the last date (9999-12-31 from 16:00 on), and
    returns a [datetime] for every other valid argument. *)
Theorem get_local_time_overflows_only_at_the_end (utc_time : datetime) :
  valid_datetime utc_time ->
  (get_local_time utc_time = Raise OverflowError
   <-> (ordinal utc_time = _MAXORDINAL /\ 16 <= hour utc_time)%Z)
  /\ (forall e : Exception,
        get_local_time utc_time = Raise e -> e = OverflowError).
Proof.
  intro Hv. rewrite (get_local_time_eq utc_time Hv). cbv zeta.
  destruct Hv as (Ho & Hh & Hm & Hs & Hus).
  destruct (Z.leb_spec
              (ordinal utc_time + (if (hour utc_time <? 16)%Z then 0 else 1))
              _MAXORDINAL) as [Hle|Hgt].
  - split; [split|].
    + discriminate.
    + intros [Hlast Hlate].
      destruct (Z.ltb_spec (hour utc_time) 16); cbv iota in *; lia.
    + discriminate.
  - split; [split|].
    + intros _. destruct (Z.ltb_spec (hour utc_time) 16); cbv iota in *; lia.
    + reflexivity.
    + intros e He. injection He as <-. reflexivity.
Qed.

Lemma get_local_time_overflows_only_at_the_end_witness :
  valid_datetime (mk_datetime 3652059 16 0 0 0)
  /\ get_local_time (mk_datetime 3652059 16 0 0 0) = Raise OverflowError.
Proof.
  assert (Hv : valid_datetime (mk_datetime 3652059 16 0 0 0))
    by (unfold valid_datetime, _MAXORDINAL; cbn; lia).
  split; [exact Hv|].
  apply (proj1 (get_local_time_overflows_only_at_the_end _ Hv)).
  split; [reflexivity | cbn; lia].
Defined.

(** ** Dragging *)

Lemma last_cons_default {A : Type} (p d : A) (l : list A) :
  last (p :: l) d = last l p.
Proof.
  revert p d. induction l as [|q l IH]; intros p d; [reflexivity|].
  change (last (p :: q :: l) d) with (last (q :: l) d).
  rewrite (IH q d), (IH q p). reflexivity.
Qed.

Lemma wrap_int_small (z : Z) :
  (INT_MIN <= z <= INT_MAX)%Z -> wrap_int z = z.
Proof.
  unfold INT_MIN, INT_MAX, wrap_int. intro H.
  rewrite Z.mod_small by lia. lia.
Qed.

Lemma is_int_true (z : Z) :
  (INT_MIN <= z <= INT_MAX)%Z -> is_int z = true.
Proof.
  intro H. unfold is_int.
  apply andb_true_intro. split; apply Z.leb_le; lia.
Qed.

(** A move event during a drag, when neither the displacement of the
    cursor nor the new position leaves the range of [int]. *)
Lemma mouseMoveEvent_dragging (p s : QPoint) (w : Window) :
  _drag_start w = Some s ->
  (INT_MIN <= qx p - qx s <= INT_MAX)%Z ->
  (INT_MIN <= qy p - qy s <= INT_MAX)%Z ->
  (INT_MIN <= pos_x w + (qx p - qx s) <= INT_MAX)%Z ->
  (INT_MIN <= pos_y w + (qy p - qy s) <= INT_MAX)%Z ->
  mouseMoveEvent p w
  = (Return tt,
     mk_Window (pos_x w + (qx p - qx s)) (pos_y w + (qy p - qy s)) (Some p)).
Proof.
  intros H Hdx Hdy Hx Hy.
  unfold mouseMoveEvent, bind, gets. rewrite H.
  unfold QPoint_sub. cbn [qx qy].
  rewrite (wrap_int_small _ Hdx), (wrap_int_small _ Hdy).
  unfold move. rewrite (is_int_true _ Hx), (is_int_true _ Hy).
  reflexivity.
Qed.

(** During a drag that began at [p0] with the window at [(x0, y0)], the
    window is displaced from there by the displacement of the cursor. *)
Lemma mouse_moves_dragging (ps : list QPoint) :
  forall (s p0 : QPoint) (x0 y0 : Z) (w : Window),
    _drag_start w = Some s ->
    pos_x w = (x0 + (qx s - qx p0))%Z ->
    pos_y w = (y0 + (qy s - qy p0))%Z ->
    screen_coordinate x0 -> screen_coordinate y0 ->
    screen_point p0 -> screen_point s -> Forall screen_point ps ->
    mouse_moves ps w
    = (Return tt,
       mk_Window (x0 + (qx (last ps s) - qx p0))
                 (y0 + (qy (last ps s) - qy p0))
                 (Some (last ps s))).
Proof.
  induction ps as [|p ps IH];
    intros s p0 x0 y0 w Hd Hx Hy Hx0 Hy0 Hp0 Hs Hps.
  - destruct w as [x y d]. cbn in *. subst. reflexivity.
  - inversion Hps as [|p' ps' Hp Hrest]; subst.
    unfold screen_point, screen_coordinate in *.
    destruct Hp0 as [Hp0x Hp0y]. destruct Hs as [Hsx Hsy].
    destruct Hp as [Hpx Hpy].
    cbn [mouse_moves]. unfold bind.
    rewrite (mouseMoveEvent_dragging p s w Hd)
      by (unfold INT_MIN, INT_MAX; lia).
    rewrite (IH p p0 x0 y0); try assumption; cbn [pos_x pos_y _drag_start];
      try reflexivity; try lia; try (split; assumption).
    rewrite last_cons_default. reflexivity.
Qed.

(** X12: while the window is dragged across the screen it follows the
    cursor exactly.  For a window and cursor positions within 2^29 of
    the origin, after a press at [p0] and any sequence of move events
    the window has moved from where it was at the press by the
    displacement of the cursor from [p0] to its last position, whatever
    the path in between; the last position is the new start of the
    drag. *)
Theorem dragged_window_follows_cursor
    (p0 : QPoint) (ps : list QPoint) (w : Window) :
  screen_coordinate (pos_x w) ->
  screen_coordinate (pos_y w) ->
  Forall screen_point (p0 :: ps) ->
  bind (mousePressEvent p0) (fun _ => mouse_moves ps) w
  = (Return tt,
     mk_Window (pos_x w + (qx (last ps p0) - qx p0))
               (pos_y w + (qy (last ps p0) - qy p0))
               (Some (last ps p0))).
Proof.
  intros Hx Hy Hall.
  inversion Hall as [|p' ps' Hp0 Hps]; subst.
  unfold bind, mousePressEvent, modify.
  apply (mouse_moves_dragging ps p0 p0 (pos_x w) (pos_y w));
    try assumption; cbn [pos_x pos_y _drag_start]; try reflexivity; lia.
Qed.

Lemma dragged_window_follows_cursor_witness :
  screen_coordinate (pos_x (mk_Window 1480 820 None))
  /\ screen_coordinate (pos_y (mk_Window 1480 820 None))
  /\ Forall screen_point
            [mk_QPoint 1500 830; mk_QPoint 1510 835; mk_QPoint 1400 700]
  /\ bind (mousePressEvent (mk_QPoint 1500 830))
          (fun _ => mouse_moves [mk_QPoint 1510 835; mk_QPoint 1400 700])
          (mk_Window 1480 820 None)
     = (Return tt, mk_Window 1380 690 (Some (mk_QPoint 1400 700))).
Proof.
  assert (Hx : screen_coordinate (pos_x (mk_Window 1480 820 None)))
    by (unfold screen_coordinate; cbn; lia).
  assert (Hy : screen_coordinate (pos_y (mk_Window 1480 820 None)))
    by (unfold screen_coordinate; cbn; lia).
  assert (Hall : Forall screen_point
                   [mk_QPoint 1500 830; mk_QPoint 1510 835;
                    mk_QPoint 1400 700])
    by (repeat constructor; unfold screen_coordinate; cbn; lia).
  split; [exact Hx|]. split; [exact Hy|]. split; [exact Hall|].
  exact (dragged_window_follows_cursor
           (mk_QPoint 1500 830) [mk_QPoint 1510 835; mk_QPoint 1400 700]
           (mk_Window 1480 820 None) Hx Hy Hall).
Defined.

(** Outside the range of [int] the displacement wraps around: a press
    at (-1, 0) followed by a move to (2147483647, 0) moves the window
    to the left by 2^31. *)
Example displacement_wraps_around :
  bind (mousePressEvent (mk_QPoint (-1) 0))
       (fun _ => mouseMoveEvent (mk_QPoint 2147483647 0))
       (mk_Window 0 0 None)
  = (Return tt,
     mk_Window (-2147483648) 0 (Some (mk_QPoint 2147483647 0))).
Proof. reflexivity. Qed.

(** X13: a move event that arrives before any press raises a
    [TypeError] and leaves the window where it is; so does any
    sequence of move events that starts this way. *)
Theorem move_before_press_raises
    (p : QPoint) (ps : list QPoint) (w : Window) :
  _drag_start w = None ->
  mouseMoveEvent p w = (Raise TypeError, w)
  /\ mouse_moves (p :: ps) w = (Raise TypeError, w).
Proof.
  intro H.
  assert (E : mouseMoveEvent p w = (Raise TypeError, w)).
  { unfold mouseMoveEvent, bind, gets. rewrite H. reflexivity. }
  split; [exact E|].
  cbn [mouse_moves]. unfold bind. rewrite E. reflexivity.
Qed.

Lemma move_before_press_raises_witness :
  _drag_start (mk_Window 1480 820 None) = None
  /\ mouseMoveEvent (mk_QPoint 1500 830) (mk_Window 1480 820 None)
     = (Raise TypeError, mk_Window 1480 820 None).
Proof.
  split; [reflexivity|].
  exact (proj1 (move_before_press_raises
                  (mk_QPoint 1500 830) [] (mk_Window 1480 820 None) eq_refl)).
Defined.

(** ** Timers *)

Section Scheduling.

Variable X : Type.
Variable action : M X unit.
Variable f : X -> X.

(** The action returns normally; [f] is its effect. *)
Hypothesis action_returns : forall x : X, action x = (Return tt, f x).

Lemma action_wrapper_eq (l : Loop X) :
  action_wrapper action l = (Return tt, mk_Loop (timer l) (f (host l))).
Proof.
  unfold action_wrapper, zoom. rewrite action_returns. reflexivity.
Qed.

Lemma repeat_wrapper_repeating (repeat_millis : Z) (l : Loop X) :
  (0 < repeat_millis)%Z ->
  repeat_wrapper action repeat_millis l
  = (Return tt,
     mk_Loop (mk_QTimer (connected (timer l) ++ [action_wrapper_slot])
                        false repeat_millis true)
             (f (host l))).
Proof.
  intro H. unfold repeat_wrapper, bind. rewrite action_wrapper_eq.
  assert (E : (repeat_millis >? 0)%Z = true)
    by (destruct (Z.gtb_spec repeat_millis 0); [reflexivity | lia]).
  rewrite E. reflexivity.
Qed.

Lemma repeat_wrapper_once (repeat_millis : Z) (l : Loop X) :
  (repeat_millis <= 0)%Z ->
  repeat_wrapper action repeat_millis l
  = (Return tt, mk_Loop (timer l) (f (host l))).
Proof.
  intro H. unfold repeat_wrapper, bind. rewrite action_wrapper_eq.
  assert (E : (repeat_millis >? 0)%Z = false)
    by (destruct (Z.gtb_spec repeat_millis 0); [lia | reflexivity]).
  rewrite E. reflexivity.
Qed.

Lemma emit_action_wrappers (repeat_millis : Z) (k : nat) (l : Loop X) :
  emit action repeat_millis (repeat action_wrapper_slot k) l
  = (Return tt, mk_Loop (timer l) (Nat.iter k f (host l))).
Proof.
  revert l. induction k as [|k IH]; intro l.
  - destruct l. reflexivity.
  - cbn [repeat emit run_slot]. unfold bind.
    rewrite action_wrapper_eq, IH. cbn [timer host].
    rewrite <- Nat.iter_succ_r. reflexivity.
Qed.

Lemma repeat_snoc (k : nat) :
  (repeat action_wrapper_slot k ++ [action_wrapper_slot])%list
  = repeat action_wrapper_slot (S k).
Proof.
  induction k as [|k IH]; [reflexivity|].
  cbn [repeat app]. rewrite IH. reflexivity.
Qed.

(** One expiration of a repeating timer that expired [n] times. *)
Lemma timerEvent_repeating (delay_millis repeat_millis : Z) (n : nat) (x : X) :
  (0 < repeat_millis)%Z ->
  timerEvent action repeat_millis
    (mk_Loop (repeating_timer delay_millis repeat_millis n) x)
  = (Return tt,
     mk_Loop (repeating_timer delay_millis repeat_millis (S n))
             (Nat.iter (S n) f x)).
Proof.
  intro Hrep. destruct n as [|n].
  - unfold timerEvent. cbn [repeating_timer timer isActive isSingleShot stop
                            connected host emit run_slot].
    unfold bind. rewrite (repeat_wrapper_repeating _ _ Hrep). reflexivity.
  - unfold timerEvent. cbn [repeating_timer timer isActive isSingleShot
                            connected emit run_slot].
    unfold bind. rewrite (repeat_wrapper_repeating _ _ Hrep).
    rewrite emit_action_wrappers. cbn [timer host connected].
    change (repeat_wrapper_slot :: repeat action_wrapper_slot (S n))
      with ([repeat_wrapper_slot] ++ repeat action_wrapper_slot (S n))%list.
    rewrite <- app_assoc, repeat_snoc.
    rewrite <- Nat.iter_succ_r. reflexivity.
Qed.

Lemma triangle_double (n : nat) : (2 * triangle n = n * (n + 1))%nat.
Proof.
  induction n as [|n IH]; [reflexivity|].
  cbn [triangle]. lia.
Qed.

(** The timer and the host state after [n] expirations. *)
Lemma timeouts_repeating (delay_millis repeat_millis : Z) (n : nat) (x : X) :
  (0 < repeat_millis)%Z ->
  timeouts action repeat_millis n
    (mk_Loop (q_delay action delay_millis repeat_millis) x)
  = (Return tt,
     mk_Loop (repeating_timer delay_millis repeat_millis n)
             (Nat.iter (triangle n) f x)).
Proof.
  intro Hrep. induction n as [|n IH]; [reflexivity|].
  cbn [timeouts]. unfold bind. rewrite IH.
  rewrite (timerEvent_repeating _ _ _ _ Hrep).
  rewrite <- Nat.iter_add. reflexivity.
Qed.

(** X14: a timer made by [q_delay] with a positive repeat interval
    calls the action once more at each expiration than at the one
    before: [repeat_wrapper] stays connected and connects
    [action_wrapper] again every time it runs.  After [n] expirations
    [n] copies of [action_wrapper] are connected besides
    [repeat_wrapper], the action has run 1 + 2 + ... + n = n (n + 1) / 2
    times, and the next expiration runs it [n + 1] times. *)
Theorem repeating_timer_calls_grow
    (delay_millis repeat_millis : Z) (n : nat) (x : X) :
  (0 < repeat_millis)%Z ->
  timeouts action repeat_millis n
    (mk_Loop (q_delay action delay_millis repeat_millis) x)
  = (Return tt,
     mk_Loop (repeating_timer delay_millis repeat_millis n)
             (Nat.iter (triangle n) f x))
  /\ timerEvent action repeat_millis
       (mk_Loop (repeating_timer delay_millis repeat_millis n)
                (Nat.iter (triangle n) f x))
     = (Return tt,
        mk_Loop (repeating_timer delay_millis repeat_millis (S n))
                (Nat.iter (S n) f (Nat.iter (triangle n) f x)))
  /\ (2 * triangle n = n * (n + 1))%nat.
Proof.
  intro Hrep. split; [|split].
  - apply timeouts_repeating. exact Hrep.
  - apply timerEvent_repeating. exact Hrep.
  - apply triangle_double.
Qed.

(** X15: with a repeat interval that is not positive the timer is a
    single shot: the first expiration runs the action once and leaves
    the timer stopped, so that however often expirations are attempted
    afterwards, the action has run exactly once. *)
Theorem single_shot_timer_calls_once
    (delay_millis repeat_millis : Z) (n : nat) (x : X) :
  (repeat_millis <= 0)%Z ->
  timeouts action repeat_millis (S n)
    (mk_Loop (q_delay action delay_millis repeat_millis) x)
  = (Return tt,
     mk_Loop (mk_QTimer [repeat_wrapper_slot] true delay_millis false) (f x)).
Proof.
  intro Hrep. induction n as [|n IH].
  - cbn [timeouts]. unfold bind, ret, timerEvent.
    cbn [q_delay QTimer_new timeout_connect setSingleShot start stop timer
         isActive isSingleShot connected host app emit run_slot].
    unfold bind. rewrite (repeat_wrapper_once _ _ Hrep). reflexivity.
  - change (timeouts action repeat_millis (S (S n)))
      with (bind (timeouts action repeat_millis (S n))
                 (fun _ => timerEvent action repeat_millis)).
    unfold bind. rewrite IH. reflexivity.
Qed.

End Scheduling.

Lemma repeating_timer_calls_grow_witness :
  (forall x : nat, modify S x = (Return tt, S x))
  /\ (0 < 100)%Z
  /\ timeouts (modify S) 100 4 (mk_Loop (q_delay (modify S) 0 100) 0%nat)
     = (Return tt,
        mk_Loop (mk_QTimer [repeat_wrapper_slot; action_wrapper_slot;
                            action_wrapper_slot; action_wrapper_slot;
                            action_wrapper_slot]
                           false 100 true)
                10%nat).
Proof.
  assert (Hret : forall x : nat, modify S x = (Return tt, S x))
    by (intro x; reflexivity).
  assert (Hrep : (0 < 100)%Z) by reflexivity.
  split; [exact Hret|]. split; [exact Hrep|].
  exact (proj1 (repeating_timer_calls_grow nat (modify S) S Hret 0 100 4 0%nat
                  Hrep)).
Defined.

Lemma single_shot_timer_calls_once_witness :
  (forall x : nat, modify S x = (Return tt, S x))
  /\ (0 <= 0)%Z
  /\ timeouts (modify S) 0 3 (mk_Loop (q_delay (modify S) 50 0) 0%nat)
     = (Return tt,
        mk_Loop (mk_QTimer [repeat_wrapper_slot] true 50 false) 1%nat).
Proof.
  assert (Hret : forall x : nat, modify S x = (Return tt, S x))
    by (intro x; reflexivity).
  assert (Hrep : (0 <= 0)%Z) by (apply Z.le_refl).
  split; [exact Hret|]. split; [exact Hrep|].
  exact (single_shot_timer_calls_once nat (modify S) S Hret 50 0 2 0%nat Hrep).
Defined.

(** ** The timer of the periodic check *)

Lemma after_checks_iter (k : nat) (a : App) :
  after (checks show_time_jump k) a
  = Nat.iter k (after monitor_time_change) a.
Proof.
  revert a. induction k as [|k IH]; intro a; [reflexivity|].
  rewrite Nat.iter_succ_r, <- IH.
  unfold after. rewrite checks_show_succ. reflexivity.
Qed.

Lemma time_calls_after_checks (k : nat) (a : App) :
  time_calls (clock (after (checks show_time_jump k) a))
  = (time_calls (clock a) + k)%nat
  /\ monotonic_calls (clock (after (checks show_time_jump k) a))
     = (monotonic_calls (clock a) + k)%nat.
Proof.
  rewrite after_checks_iter.
  induction k as [|k [IH1 IH2]]; [cbn; lia|].
  rewrite Nat.iter_succ, clock_after_check.
  cbn [tick time_calls monotonic_calls]. lia.
Qed.

(** X16: the timer of the periodic check piles checks up.  After its
    n-th expiration the application has made 1 + 2 + ... + n checks, not
    n: each expiration repeats the check once more than the one before,
    and each check reads both time sources once. *)
Theorem monitor_timer_checks_pile_up (n : nat) (a : App) :
  timeouts monitor_time_change 2000 n (mk_Loop _monitor_timer a)
  = (Return tt,
     mk_Loop (repeating_timer 2000 2000 n)
             (after (checks show_time_jump (triangle n)) a))
  /\ time_calls (clock (after (checks show_time_jump (triangle n)) a))
     = (time_calls (clock a) + triangle n)%nat
  /\ monotonic_calls (clock (after (checks show_time_jump (triangle n)) a))
     = (monotonic_calls (clock a) + triangle n)%nat.
Proof.
  split; [|apply time_calls_after_checks].
  rewrite after_checks_iter.
  apply (timeouts_repeating App monitor_time_change
           (after monitor_time_change) monitor_time_change_returns).
  reflexivity.
Qed.
